(** * IntelliTask front end: session bootstrap and Kanban status transitions

    A shallow embedding of three pieces of the front end:

    - [AuthContext]: the [AuthProvider] component (React state [user],
      [idToken], [role], [loading]; [googleSignIn], [logOut] and the
      [onAuthStateChanged] callback), together with the gate of [HomePage];
    - [ApiClient]: [fetchFromApi] and the [apiClient] methods;
    - [DeveloperDashboard]: the task board ([fetchTasks], [handleDragStart],
      [handleDragEnd]).

    Further on, what the board renders ([DeveloperDashboardView]) and the
    pages around it: [AdminReviewPage], [UserManagementPage], [ProfilePage]
    and [AdminDashboard].

    The handlers are [async] functions.  An [async] function runs
    synchronously up to its next [await], where it hands control back to the
    event loop; it is resumed when the awaited promise settles.  Each [await]
    of the source is a constructor of a type of frames that carries the local
    variables in scope there, and each component has a function [settle] that
    resumes a frame with the way its promise settled.  State setters called
    between two suspension points are applied together (React batches them),
    so the states a render can observe are the ones at the suspension points
    and at completion. *)

From Stdlib Require Import List String Bool Arith Lia.
Import ListNotations.
Local Open Scope string_scope.

Set Implicit Arguments.

(** ** Promises and the event loop *)

(** How a promise settles. *)
Inductive Settled (R : Type) : Type :=
| Resolved (r : R)
| Rejected (reason : string).
Arguments Resolved {R} r.
Arguments Rejected {R} reason.

Definition bind {A B : Type} (m : Settled A) (k : A -> Settled B) : Settled B :=
  match m with
  | Resolved a => k a
  | Rejected e => Rejected e
  end.

Notation "x <- m ;; k" := (bind m (fun x => k))
  (at level 61, m at next level, right associativity).

(** What a handler invocation is doing when it hands control back: it has
    returned, or it is suspended in a frame awaiting a reply of type [R]. *)
Inductive Suspension (Frame : Type -> Type) : Type :=
| Finished
| Pending (R : Type) (f : Frame R).
Arguments Finished {Frame}.
Arguments Pending {Frame R} f.

Section EventLoop.
Variable St : Type.
Variable Frame : Type -> Type.
Variable settle : forall R, Frame R -> Settled R -> St -> St * Suspension Frame.
Variable Env : Type.
Variable answer : Env -> forall R, Frame R -> Settled R.

(** Runs one handler invocation on its own: whenever it is suspended, the
    awaited promise settles the way [env] says and the handler resumes.  The
    result lists every point at which control was handed back, with the
    component state published there; the first is the point reached by the
    synchronous prefix of the handler. *)
Fixpoint drive (fuel : nat) (env : Env) (sp : St * Suspension Frame)
  : list (St * Suspension Frame) :=
  sp :: match snd sp, fuel with
        | Pending f, S n => drive n env (settle f (answer env f) (fst sp))
        | _, _ => []
        end.

Definition outcome (tr : list (St * Suspension Frame)) (s : St) : St * Suspension Frame :=
  last tr (s, Finished).
End EventLoop.

Section Interleaved.
Variable St : Type.
Variable Frame : Type -> Type.
Variable settle : forall R, Frame R -> Settled R -> St -> St * Suspension Frame.
Variable Env : Type.
Variable answer : Env -> forall R, Frame R -> Settled R.

(** The component state together with the invocations that are suspended at
    the moment, oldest first: handlers do not wait for one another. *)
Definition Running : Type := (St * list (Suspension Frame))%type.

Definition still_pending (p : Suspension Frame) : list (Suspension Frame) :=
  match p with
  | Finished => []
  | Pending _ => [p]
  end.

(** An event arrives while others are in flight: its handler runs up to its
    first [await]. *)
Definition fire (start : St -> St * Suspension Frame) (c : Running) : Running :=
  let sp := start (fst c) in
  (fst sp, (snd c ++ still_pending (snd sp))%list).

(** The promise awaited by the [i]-th suspended invocation settles the way
    [env] says, and that invocation resumes. *)
Definition resume (i : nat) (env : Env) (c : Running) : Running :=
  match nth_error (snd c) i with
  | Some (Pending f) =>
      let sp := settle f (answer env f) (fst c) in
      (fst sp, (firstn i (snd c) ++ still_pending (snd sp) ++ skipn (S i) (snd c))%list)
  | _ => c
  end.
End Interleaved.

(** The external calls the components await. *)
Record FirebaseUser : Type := { uid : string }.

Inductive Call : Type :=
| call_signOut
| call_signInWithPopup
| call_getIdToken (u : FirebaseUser)
| call_apiClient_get (endpoint : string)
| call_apiClient_put (endpoint : string) (body : list (string * string)).

(** ** AuthContext: the [AuthProvider] component *)
Module AuthContext.

Inductive RoleName : Type := admin | developer.

(** [type UserRole = "admin" | "developer" | null] *)
Definition UserRole : Type := option RoleName.

(** The four [useState] cells of [AuthProvider]. *)
Record AuthState : Type := {
  user : option FirebaseUser;
  idToken : option string;
  role : UserRole;
  loading : bool
}.

Definition initial : AuthState :=
  {| user := None; idToken := None; role := None; loading := true |}.

Definition setUser (v : option FirebaseUser) (s : AuthState) : AuthState :=
  {| user := v; idToken := idToken s; role := role s; loading := loading s |}.
Definition setIdToken (v : option string) (s : AuthState) : AuthState :=
  {| user := user s; idToken := v; role := role s; loading := loading s |}.
Definition setRole (v : UserRole) (s : AuthState) : AuthState :=
  {| user := user s; idToken := idToken s; role := v; loading := loading s |}.
Definition setLoading (v : bool) (s : AuthState) : AuthState :=
  {| user := user s; idToken := idToken s; role := role s; loading := v |}.

(** The reply of [GET /users/me], of which the callback reads [role]. *)
Record UserInfo : Type := { userInfo_role : UserRole }.

(** One constructor per [await] of the component. *)
Inductive Frame : Type -> Type :=
| googleSignIn_signInWithPopup : Frame unit
    (* googleSignIn: await signInWithPopup(auth, provider) *)
| logOut_signOut : Frame unit
    (* logOut: await signOut(auth) *)
| callback_getIdToken (currentUser : FirebaseUser) : Frame string
    (* callback: await currentUser.getIdToken() *)
| callback_get_users_me (currentUser : FirebaseUser) (token : string) : Frame UserInfo
    (* callback: await apiClient.get("/users/me") *)
| callback_logOut (currentUser : FirebaseUser) (token : string) : Frame unit.
    (* callback: await logOut(), itself suspended on await signOut(auth) *)

Definition awaited (R : Type) (f : Frame R) : Call :=
  match f with
  | googleSignIn_signInWithPopup => call_signInWithPopup
  | logOut_signOut => call_signOut
  | callback_getIdToken u => call_getIdToken u
  | callback_get_users_me _ _ => call_apiClient_get "/users/me"
  | callback_logOut _ _ => call_signOut
  end.

(** [setUser(null); setIdToken(null); setRole(null);] *)
Definition clear (s : AuthState) : AuthState :=
  setRole None (setIdToken None (setUser None s)).

(** [googleSignIn], up to its [await]. *)
Definition googleSignIn (s : AuthState) : AuthState * Suspension Frame :=
  (s, Pending googleSignIn_signInWithPopup).

(** [logOut], up to its [await]. *)
Definition logOut (s : AuthState) : AuthState * Suspension Frame :=
  (s, Pending logOut_signOut).

(** The body of [logOut] after [await signOut(auth)]: the state is cleared
    inside the [try], the [catch] only logs. *)
Definition logOut_resume (o : Settled unit) (s : AuthState) : AuthState :=
  match o with
  | Resolved _ => clear s
  | Rejected _ => s
  end.

(** The [onAuthStateChanged] callback, up to its first [await] (the
    logged-out branch has none and runs to the end). *)
Definition callback (currentUser : option FirebaseUser) (s : AuthState)
  : AuthState * Suspension Frame :=
  let s := setLoading true s in
  match currentUser with
  | Some u => (setUser (Some u) s, Pending (callback_getIdToken u))
  | None => (setLoading false (clear s), Finished)
  end.

Definition settle (R : Type) (f : Frame R)
  : Settled R -> AuthState -> AuthState * Suspension Frame :=
  match f in Frame R0 return Settled R0 -> AuthState -> AuthState * Suspension Frame with
  | googleSignIn_signInWithPopup => fun _ s =>
      (* resolved: nothing more to do; rejected: console.error *)
      (s, Finished)
  | logOut_signOut => fun o s =>
      (logOut_resume o s, Finished)
  | callback_getIdToken u => fun o s =>
      match o with
      | Resolved token =>
          (setIdToken (Some token) s, Pending (callback_get_users_me u token))
      | Rejected _ =>
          (* not inside any try: the callback stops here *)
          (s, Finished)
      end
  | callback_get_users_me u token => fun o s =>
      match o with
      | Resolved userInfo =>
          (setLoading false (setRole (userInfo_role userInfo) s), Finished)
      | Rejected _ =>
          (* console.error; await logOut() *)
          (s, Pending (callback_logOut u token))
      end
  | callback_logOut _ _ => fun o s =>
      (* logOut never rejects; then setLoading(false) *)
      (setLoading false (logOut_resume o s), Finished)
  end.

(** What the identity provider and the user can make happen. *)
Inductive Event : Type :=
| authStateChanged (currentUser : option FirebaseUser)
| click_googleSignIn
| click_logOut.

Definition start (e : Event) (s : AuthState) : AuthState * Suspension Frame :=
  match e with
  | authStateChanged currentUser => callback currentUser s
  | click_googleSignIn => googleSignIn s
  | click_logOut => logOut s
  end.

(** How the promises awaited while one event is handled settle. *)
Record Outcomes : Type := {
  signInWithPopup_outcome : Settled unit;
  signOut_outcome : Settled unit;
  getIdToken_outcome : Settled string;
  get_users_me_outcome : Settled UserInfo
}.

Definition answer (env : Outcomes) (R : Type) (f : Frame R) : Settled R :=
  match f in Frame R0 return Settled R0 with
  | googleSignIn_signInWithPopup => signInWithPopup_outcome env
  | logOut_signOut => signOut_outcome env
  | callback_getIdToken _ => getIdToken_outcome env
  | callback_get_users_me _ _ => get_users_me_outcome env
  | callback_logOut _ _ => signOut_outcome env
  end.

(** One event handled to completion: no handler awaits more than three
    promises in a row. *)
Definition handle (e : Event) (env : Outcomes) (s : AuthState)
  : list (AuthState * Suspension Frame) :=
  drive settle answer 3 env (start e s).

Definition after (e : Event) (env : Outcomes) (s : AuthState) : AuthState :=
  fst (outcome (handle e env s) s).

(** The calls issued while the event was handled. *)
Definition calls (tr : list (AuthState * Suspension Frame)) : list Call :=
  flat_map (fun sp => match snd sp with
                      | Finished => []
                      | Pending f => [awaited f]
                      end) tr.

(** Every state published while a sequence of events is handled one after
    the other, each to completion before the next. *)
Fixpoint session (evs : list (Event * Outcomes)) (s : AuthState) : list AuthState :=
  match evs with
  | [] => []
  | (e, env) :: rest => map fst (handle e env s) ++ session rest (after e env s)
  end.

(** [AuthProvider] renders its children only when [!loading]. *)
Definition renders_children (s : AuthState) : bool := negb (loading s).

(** What [HomePage] shows. *)
Inductive Screen : Type :=
| Loading_application
| show_AdminDashboard
| show_DeveloperDashboard
| Loading_user_role.

Definition renderDashboard (r : UserRole) : Screen :=
  match r with
  | Some admin => show_AdminDashboard
  | Some developer => show_DeveloperDashboard
  | None => Loading_user_role
  end.

(** [!user] *)
Definition no_user (s : AuthState) : bool :=
  match user s with
  | None => true
  | Some _ => false
  end.

(** [if (loading || !user) return <Loading application...>; ...] *)
Definition HomePage (s : AuthState) : Screen :=
  if loading s || no_user s then Loading_application
  else renderDashboard (role s).

(** The effect of [HomePage]: [if (loading) return; if (!user)
    router.push("/login")]. *)
Definition redirects_to_login (s : AuthState) : bool :=
  if loading s then false else no_user s.

End AuthContext.

(** ** ApiClient: [fetchFromApi] and the [apiClient] methods *)
Module ApiClient.

(** The part of [RequestInit] the client touches. *)
Record RequestInit : Type := {
  method : option string;
  body : option (list (string * string));
  headers : list (string * string)
}.

Definition no_options : RequestInit :=
  {| method := None; body := None; headers := [] |}.

(** Header names are matched without regard to case: a [Headers] object
    keeps them byte-lowercased. *)
Definition byte_lowercase (c : Ascii.ascii) : Ascii.ascii :=
  let n := Ascii.nat_of_ascii c in
  if Nat.leb 65 n && Nat.leb n 90 then Ascii.ascii_of_nat (n + 32) else c.

Fixpoint lowercase (name : string) : string :=
  match name with
  | EmptyString => EmptyString
  | String c rest => String (byte_lowercase c) (lowercase rest)
  end.

(** [new Headers(init)]: every entry of [init] is appended under its
    lowercased name.  Names are taken to be valid header names and values to
    have no white space at their ends, which [Headers] would strip. *)
Definition Headers_new (init : list (string * string)) : list (string * string) :=
  map (fun h => (lowercase (fst h), snd h)) init.

(** The first header of that name gets the value, the later ones go. *)
Fixpoint set_first (n value : string) (hs : list (string * string))
  : list (string * string) :=
  match hs with
  | [] => []
  | h :: rest =>
      if fst h =? n then (n, value) :: filter (fun h' => negb (fst h' =? n)) rest
      else h :: set_first n value rest
  end.

(** [headers.set(name, value)]: the value replaces every earlier one of that
    name, and is appended when there is none. *)
Definition Headers_set (name value : string) (hs : list (string * string))
  : list (string * string) :=
  let n := lowercase name in
  if existsb (fun h => fst h =? n) hs then set_first n value hs
  else hs ++ [(n, value)].

(** [headers.get(name)]: the values of that name, joined by a comma and a
    space, or [null]. *)
Definition Headers_get (name : string) (hs : list (string * string)) : option string :=
  match filter (fun h => fst h =? lowercase name) hs with
  | [] => None
  | found => Some (String.concat ", " (map snd found))
  end.

(** A value that [response.json()] can settle to.  A number is kept as the
    text [String] gives for it, which is "0" exactly for zero. *)
#[warnings="-register-all"]
Inductive Json : Type :=
| JNull
| JBool (b : bool)
| JNumber (text : string)
| JString (s : string)
| JArray (items : list Json)
| JObject (members : list (string * Json)).

(** Truthiness, as [||] tests it. *)
Definition truthy (v : Json) : bool :=
  match v with
  | JNull => false
  | JBool b => b
  | JNumber text => negb (text =? "0")
  | JString s => negb (s =? "")
  | JArray _ => true
  | JObject _ => true
  end.

(** [String(v)], the message [new Error(v)] gets: an array is the join of
    its items by commas, with nothing for a [null] item. *)
Fixpoint ToString (v : Json) : string :=
  match v with
  | JNull => "null"
  | JBool true => "true"
  | JBool false => "false"
  | JNumber text => text
  | JString s => s
  | JArray items =>
      String.concat ","
        (map (fun item => match item with JNull => "" | _ => ToString item end) items)
  | JObject _ => "[object Object]"
  end.

(** [errorData.detail] for an [errorData] that is not [null]: the last
    member of that name of an object, and [undefined] for anything else. *)
Definition detail_of (errorData : Json) : option Json :=
  match errorData with
  | JObject members =>
      option_map snd (find (fun member => fst member =? "detail") (rev members))
  | _ => None
  end.

(** The message of the [TypeError] that reading [detail] of [null] throws;
    the wording is the engine's. *)
Definition TypeError_reading_detail : string :=
  "Cannot read properties of null (reading 'detail')".

(** A response of [fetch], with the payload type [J] of the endpoint.
    [json] and [json_value] are two views of what [response.json()] settles
    to: the payload read on the success path, and the value as the error path
    inspects it. *)
Record Response (J : Type) : Type := {
  ok : bool;
  status : nat;
  json : Settled J;
  json_value : Settled Json
}.

(** What lies outside the client: [process.env.NEXT_PUBLIC_API_BASE_URL],
    the identity provider's [auth.currentUser] and [getIdToken], and the
    network behind [fetch]. *)
Record World (J : Type) : Type := {
  API_BASE_URL : string;
  auth_currentUser : option FirebaseUser;
  getIdToken : FirebaseUser -> Settled string;
  fetch : string -> RequestInit -> Settled (Response J)
}.

(** What one call of [fetchFromApi] did: the request handed to [fetch], if
    it got that far, and how the returned promise settled ([None] for the
    [null] of a 204). *)
Record Exchange (J : Type) : Type := {
  sent : option (string * RequestInit);
  result : Settled (option J)
}.

(** The first statements of [fetchFromApi]: the credential every request is
    sent with. *)
Definition fetchFromApi_token (J : Type) (w : World J) : Settled string :=
  match auth_currentUser w with
  | None => Rejected "No authenticated user found."
  | Some user => getIdToken w user
  end.

(** The message the error path rejects with: that of [new
    Error(errorData.detail || 'API request failed')], where [errorData] is
    the parsed body, or [{}] when parsing fails; reading [detail] of a body
    that is [null] throws instead. *)
Definition error_message (J : Type) (response : Response J) : string :=
  match json_value response with
  | Rejected _ => "API request failed"
  | Resolved JNull => TypeError_reading_detail
  | Resolved errorData =>
      match detail_of errorData with
      | Some detail => if truthy detail then ToString detail else "API request failed"
      | None => "API request failed"
      end
  end.

Definition fetchFromApi (J : Type) (w : World J) (endpoint : string) (options : RequestInit)
  : Exchange J :=
  match fetchFromApi_token w with
  | Rejected e => {| sent := None; result := Rejected e |}
  | Resolved token =>
      let headers :=
        Headers_set "Content-Type" "application/json"
          (Headers_set "Authorization" ("Bearer " ++ token)
             (Headers_new (headers options))) in
      let requestOptions :=
        {| method := method options; body := body options; headers := headers |} in
      let url := API_BASE_URL w ++ endpoint in
      {| sent := Some (url, requestOptions);
         result :=
           response <- fetch w url requestOptions ;;
           if negb (ok response) then Rejected (error_message response)
           else if Nat.eqb (status response) 204 then Resolved None
           else j <- json response ;; Resolved (Some j) |}
  end.

Definition with_method (m : string) (b : option (list (string * string)))
    (options : RequestInit) : RequestInit :=
  {| method := Some m;
     body := match b with Some _ => b | None => body options end;
     headers := headers options |}.

Definition get (J : Type) (w : World J) (endpoint : string) (options : RequestInit) :=
  fetchFromApi w endpoint (with_method "GET" None options).
Definition post (J : Type) (w : World J) (endpoint : string) (b : list (string * string))
    (options : RequestInit) :=
  fetchFromApi w endpoint (with_method "POST" (Some b) options).
Definition put (J : Type) (w : World J) (endpoint : string) (b : list (string * string))
    (options : RequestInit) :=
  fetchFromApi w endpoint (with_method "PUT" (Some b) options).
Definition delete (J : Type) (w : World J) (endpoint : string) (options : RequestInit) :=
  fetchFromApi w endpoint (with_method "DELETE" None options).

End ApiClient.

(** ** DeveloperDashboard: the task board *)
Module DeveloperDashboard.

Definition TASK_STATUSES : list string := ["To-Do"; "In Progress"; "In Review"; "Done"].

Record Task : Type := {
  taskId : string;
  projectId : string;
  title : string;
  description : string;
  status : string;
  priority : string
}.

(** [{ ...t, status: newStatus }] *)
Definition with_status (newStatus : string) (t : Task) : Task :=
  {| taskId := taskId t; projectId := projectId t; title := title t;
     description := description t; status := newStatus; priority := priority t |}.

(** The [useState] cells of the component. *)
Record Board : Type := {
  tasks : list Task;
  activeTask : option Task;
  loading : bool;
  error : option string;
  selectedTaskId : option string;
  selectedTaskTitle : option string
}.

Definition initial : Board :=
  {| tasks := []; activeTask := None; loading := true; error := None;
     selectedTaskId := None; selectedTaskTitle := None |}.

Definition setTasks (f : list Task -> list Task) (b : Board) : Board :=
  {| tasks := f (tasks b); activeTask := activeTask b; loading := loading b;
     error := error b; selectedTaskId := selectedTaskId b;
     selectedTaskTitle := selectedTaskTitle b |}.
Definition setActiveTask (v : option Task) (b : Board) : Board :=
  {| tasks := tasks b; activeTask := v; loading := loading b;
     error := error b; selectedTaskId := selectedTaskId b;
     selectedTaskTitle := selectedTaskTitle b |}.
Definition setLoading (v : bool) (b : Board) : Board :=
  {| tasks := tasks b; activeTask := activeTask b; loading := v;
     error := error b; selectedTaskId := selectedTaskId b;
     selectedTaskTitle := selectedTaskTitle b |}.
Definition setError (v : option string) (b : Board) : Board :=
  {| tasks := tasks b; activeTask := activeTask b; loading := loading b;
     error := v; selectedTaskId := selectedTaskId b;
     selectedTaskTitle := selectedTaskTitle b |}.
Definition setSelected (id ttl : option string) (b : Board) : Board :=
  {| tasks := tasks b; activeTask := activeTask b; loading := loading b;
     error := error b; selectedTaskId := id; selectedTaskTitle := ttl |}.

(** One constructor per [await] of the component, with the local variables
    in scope there. *)
Inductive Frame : Type -> Type :=
| fetchTasks_get : Frame (list Task)
    (* fetchTasks: await apiClient.get("/tasks/my") *)
| handleDragEnd_put (taskId : string) (currentTask : Task) (newStatus : string) : Frame unit.
    (* handleDragEnd: await apiClient.put(`/tasks/${taskId}/status`, { status: newStatus }) *)

Definition awaited (R : Type) (f : Frame R) : Call :=
  match f with
  | fetchTasks_get => call_apiClient_get "/tasks/my"
  | handleDragEnd_put taskId _ newStatus =>
      call_apiClient_put ("/tasks/" ++ taskId ++ "/status") [("status", newStatus)]
  end.

(** [fetchTasks], up to its [await]. *)
Definition fetchTasks (b : Board) : Board * Suspension Frame :=
  (setError None (setLoading true b), Pending fetchTasks_get).

Record DragStartEvent : Type := { dragged : option Task }.

Definition handleDragStart (event : DragStartEvent) (b : Board) : Board * Suspension Frame :=
  (setActiveTask (dragged event) b, Finished).

(** [active.id] and [over?.id] of a [DragEndEvent]. *)
Record DragEndEvent : Type := {
  active_id : string;
  over_id : option string
}.

(** [handleDragEnd], up to its [await].  [tasks] read outside a setter is
    the list of the render the handler belongs to, which is the current one
    when the gesture ends. *)
Definition handleDragEnd (event : DragEndEvent) (b : Board) : Board * Suspension Frame :=
  let tasks_rendered := tasks b in
  let b := setActiveTask None b in
  match over_id event with
  | None => (b, Finished)
  | Some newStatus =>
      let taskId_ := active_id event in
      match find (fun t => taskId t =? taskId_) tasks_rendered with
      | Some currentTask =>
          if negb (status currentTask =? newStatus) then
            (setTasks (map (fun t => if taskId t =? taskId_
                                     then with_status newStatus t else t)) b,
             Pending (handleDragEnd_put taskId_ currentTask newStatus))
          else (b, Finished)
      | None => (b, Finished)
      end
  end.

Definition handleOpenComments (id ttl : string) (b : Board) : Board * Suspension Frame :=
  (setSelected (Some id) (Some ttl) b, Finished).

Definition settle (R : Type) (f : Frame R)
  : Settled R -> Board -> Board * Suspension Frame :=
  match f in Frame R0 return Settled R0 -> Board -> Board * Suspension Frame with
  | fetchTasks_get => fun o b =>
      match o with
      | Resolved taskData => (setLoading false (setTasks (fun _ => taskData) b), Finished)
      | Rejected _ =>
          (* console.error(err) *)
          (setLoading false (setError (Some "Failed to fetch tasks.") b), Finished)
      end
  | handleDragEnd_put _ _ _ => fun o b =>
      match o with
      | Resolved _ => (b, Finished)
      | Rejected _ =>
          (* console.error; fetchTasks() is called and not awaited, and
             nothing follows it *)
          fetchTasks b
      end
  end.

(** What the user can make happen. *)
Inductive Event : Type :=
| mount
| click_Refresh_Board
| dragStart (event : DragStartEvent)
| dragEnd (event : DragEndEvent)
| click_Comments (id ttl : string).

Definition start (e : Event) (b : Board) : Board * Suspension Frame :=
  match e with
  | mount => fetchTasks b
  | click_Refresh_Board => fetchTasks b
  | dragStart event => handleDragStart event b
  | dragEnd event => handleDragEnd event b
  | click_Comments id ttl => handleOpenComments id ttl b
  end.

(** How the backend answers while one event is handled. *)
Record Outcomes : Type := {
  get_tasks_my_outcome : Settled (list Task);
  put_status_outcome : Settled unit
}.

Definition answer (env : Outcomes) (R : Type) (f : Frame R) : Settled R :=
  match f in Frame R0 return Settled R0 with
  | fetchTasks_get => get_tasks_my_outcome env
  | handleDragEnd_put _ _ _ => put_status_outcome env
  end.

(** One event handled to completion, with nothing else in between: no
    handler awaits more than two promises in a row. *)
Definition handle (e : Event) (env : Outcomes) (b : Board)
  : list (Board * Suspension Frame) :=
  drive settle answer 2 env (start e b).

Definition after (e : Event) (env : Outcomes) (b : Board) : Board :=
  fst (outcome (handle e env b) b).

Definition calls (tr : list (Board * Suspension Frame)) : list Call :=
  flat_map (fun sp => match snd sp with
                      | Finished => []
                      | Pending f => [awaited f]
                      end) tr.

End DeveloperDashboard.

(** ** Vocabulary of the statements *)

Definition resolved (R : Type) (o : Settled R) : bool :=
  match o with
  | Resolved _ => true
  | Rejected _ => false
  end.

Module SessionSpec.
Import AuthContext.

(** All three of [user], [idToken] and [role] are [null]. *)
Definition cleared (s : AuthState) : Prop :=
  user s = None /\ idToken s = None /\ role s = None.

(** The session as the pages see it once logged out: children rendered,
    nothing left of the identity. *)
Definition logged_out : AuthState :=
  {| user := None; idToken := None; role := None; loading := false |}.

(** A role never stands without a user. *)
Definition role_has_user (s : AuthState) : Prop :=
  role s <> None -> user s <> None.

(** Pages that are shown a user are shown their role. *)
Definition ready_has_role (s : AuthState) : Prop :=
  loading s = false -> user s <> None -> role s <> None.

(** The callback is suspended in this frame. *)
Definition in_callback (p : Suspension Frame) : bool :=
  match p with
  | Pending (callback_getIdToken _) => true
  | Pending (callback_get_users_me _ _) => true
  | Pending (callback_logOut _ _) => true
  | _ => false
  end.

(** While the callback is suspended the user it was called with is set. *)
Definition user_kept (sp : AuthState * Suspension Frame) : Prop :=
  role_has_user (fst sp) /\ (in_callback (snd sp) = true -> user (fst sp) <> None).

(** The role lookup of a logged-in event comes to a conclusion: it yields a
    role, or it fails and the provider then signs the user out. *)
Definition lookup_concludes (env : Outcomes) : bool :=
  match get_users_me_outcome env with
  | Resolved userInfo =>
      match userInfo_role userInfo with
      | Some _ => true
      | None => false
      end
  | Rejected _ => resolved (signOut_outcome env)
  end.

(** While the callback is suspended the pages are not rendered, and the
    lookup it is waiting for concludes. *)
Definition role_settled (env : Outcomes) (sp : AuthState * Suspension Frame) : Prop :=
  ready_has_role (fst sp) /\
  match snd sp with
  | Pending (callback_getIdToken _) =>
      loading (fst sp) = true /\ lookup_concludes env = true
  | Pending (callback_get_users_me _ _) =>
      loading (fst sp) = true /\ lookup_concludes env = true
  | Pending (callback_logOut _ _) =>
      resolved (signOut_outcome env) = true
  | _ => True
  end.

Definition concludes (ev : Event * Outcomes) : bool :=
  match fst ev with
  | authStateChanged (Some _) => lookup_concludes (snd ev)
  | _ => true
  end.

(** Scenario data. *)
Definition alice : FirebaseUser := {| uid := "alice" |}.

(** The provider hands out a token, the backend fails the role lookup and
    the provider then fails to sign out. *)
Definition lookup_and_signOut_fail : Outcomes :=
  {| signInWithPopup_outcome := Resolved tt;
     signOut_outcome := Rejected "auth/network-request-failed";
     getIdToken_outcome := Resolved "jwt";
     get_users_me_outcome := Rejected "API request failed" |}.

(** The same, with the provider signing out. *)
Definition lookup_fails : Outcomes :=
  {| signInWithPopup_outcome := Resolved tt;
     signOut_outcome := Resolved tt;
     getIdToken_outcome := Resolved "jwt";
     get_users_me_outcome := Rejected "API request failed" |}.

Definition lookup_gives (r : RoleName) : Outcomes :=
  {| signInWithPopup_outcome := Resolved tt;
     signOut_outcome := Resolved tt;
     getIdToken_outcome := Resolved "jwt";
     get_users_me_outcome := Resolved {| userInfo_role := Some r |} |}.

Definition signOut_fails : Outcomes :=
  {| signInWithPopup_outcome := Resolved tt;
     signOut_outcome := Rejected "auth/network-request-failed";
     getIdToken_outcome := Resolved "jwt";
     get_users_me_outcome := Resolved {| userInfo_role := Some admin |} |}.

Definition alice_as_admin : AuthState :=
  {| user := Some alice; idToken := Some "jwt"; role := Some admin; loading := false |}.

(** The world of the API client while alice's role is being looked up. *)
Definition alice_signed_in : ApiClient.World UserInfo :=
  {| ApiClient.API_BASE_URL := "http://localhost:8000";
     ApiClient.auth_currentUser := Some alice;
     ApiClient.getIdToken := fun _ => Resolved "jwt";
     ApiClient.fetch := fun _ _ => Rejected "Failed to fetch" |}.
End SessionSpec.

Module BoardSpec.
Import DeveloperDashboard.

(** Task ids are keys: the board uses them as React keys and as the ids of
    the draggable cards. *)
Definition keyed (l : list Task) : Prop := NoDup (map taskId l).

(** The cached task with a given id, as [handleDragEnd] finds it. *)
Definition lookup (id : string) (l : list Task) : option Task :=
  find (fun t => taskId t =? id) l.

(** The locals of a suspended invocation of [handleDragEnd]: task id,
    status of the task found when the gesture ended, status asked for. *)
Definition transition_in_flight (p : Suspension Frame) : option (string * string * string) :=
  match p with
  | Pending (handleDragEnd_put taskId_ currentTask newStatus) =>
      Some (taskId_, status currentTask, newStatus)
  | _ => None
  end.

(** The [map] of the optimistic update. *)
Definition retarget (id newStatus : string) (l : list Task) : list Task :=
  map (fun t => if taskId t =? id then with_status newStatus t else t) l.

Definition drop (id : string) (column : option string) : DragEndEvent :=
  {| active_id := id; over_id := column |}.

(** Two drops of the same card, the second while the status update of the
    first is still in flight. *)
Definition two_drops (id first second : string) (b : Board) : Running Board Frame :=
  fire (handleDragEnd (drop id (Some second)))
    (fire (handleDragEnd (drop id (Some first))) (b, [])).

(** Scenario data. *)
Definition t1 : Task :=
  {| taskId := "t1"; projectId := "p1"; title := "Write the report";
     description := "Quarterly numbers"; status := "To-Do"; priority := "High" |}.

Definition t2 : Task :=
  {| taskId := "t2"; projectId := "p1"; title := "Review the report";
     description := "Second pair of eyes"; status := "In Review"; priority := "Low" |}.

Definition board_of (l : list Task) : Board :=
  {| tasks := l; activeTask := None; loading := false; error := None;
     selectedTaskId := None; selectedTaskTitle := None |}.

(** The status update fails with a 500 and the refetch finds [t1] moved to
    "In Review" by somebody else. *)
Definition update_fails_then_In_Review : Outcomes :=
  {| get_tasks_my_outcome := Resolved [with_status "In Review" t1];
     put_status_outcome := Rejected "API request failed" |}.

Definition update_succeeds : Outcomes :=
  {| get_tasks_my_outcome := Rejected "unused";
     put_status_outcome := Resolved tt |}.
End BoardSpec.

(** ** DeveloperDashboard: what the board renders *)
Module DeveloperDashboardView.
Import DeveloperDashboard.

(** [tasks.filter(t => t.status === statusId)], the cards handed to one
    [KanbanColumn]. *)
Definition column (statusId : string) (l : list Task) : list Task :=
  filter (fun t => status t =? statusId) l.

(** The four [KanbanColumn] elements of the board, with their [statusId], in
    the order of the markup. *)
Definition columns (b : Board) : list (string * list Task) :=
  [("To-Do", column "To-Do" (tasks b));
   ("In Progress", column "In Progress" (tasks b));
   ("In Review", column "In Review" (tasks b));
   ("Done", column "Done" (tasks b))].

(** Every card on the board, column after column. *)
Definition cards (b : Board) : list Task := List.concat (map snd (columns b)).

(** [if (loading && tasks.length === 0) return <Loading...>] *)
Definition shows_Loading (b : Board) : bool :=
  loading b && Nat.eqb (List.length (tasks b)) 0.

(** Truthiness of a [string | null]: [null] and the empty string are falsy. *)
Definition truthy (v : option string) : bool :=
  match v with
  | Some x => negb (x =? "")
  | None => false
  end.

(** [{selectedTaskId && selectedTaskTitle && <TaskCommentModal ... />}] *)
Definition shows_TaskCommentModal (b : Board) : bool :=
  truthy (selectedTaskId b) && truthy (selectedTaskTitle b).

(** The [onClose] handed to the modal. *)
Definition onClose (b : Board) : Board := setSelected None None b.

(** Two tasks that differ at most in their status. *)
Definition same_card (t t' : Task) : Prop :=
  taskId t' = taskId t /\ projectId t' = projectId t /\ title t' = title t /\
  description t' = description t /\ priority t' = priority t.

(** [valid] statuses are the ones a column exists for. *)
Definition has_column (t : Task) : bool :=
  existsb (fun c => status t =? c) TASK_STATUSES.

End DeveloperDashboardView.

(** [err.message || fallback] *)
Definition message_or (message fallback : string) : string :=
  if message =? "" then fallback else message.

(** A call of an [apiClient] method: method, endpoint and body. *)
Record ApiCall : Type := {
  call_method : string;
  call_endpoint : string;
  call_body : list (string * string)
}.

(** ** AdminReviewPage: the review inbox *)
Module AdminReviewPage.

Record Task : Type := {
  taskId : string;
  projectId : string;
  title : string;
  description : string;
  status : string;
  priority : string;
  creator : string;
  assigneeId : option string;
  isApproved : bool
}.

Record UserData : Type := { uid : string; name : string }.

(** [{ ...task, isApproved: true }] *)
Definition approved (task : Task) : Task :=
  {| taskId := taskId task; projectId := projectId task; title := title task;
     description := description task; status := status task;
     priority := priority task; creator := creator task;
     assigneeId := assigneeId task; isApproved := true |}.

(** The [useState] cells of the page, and the [alert] dialogs it has shown,
    oldest first. *)
Record Page : Type := {
  tasks : list Task;
  developers : list UserData;
  loading : bool;
  error : option string;
  filterStatus : string;
  filterPriority : string;
  filterAssignee : string;
  isCreateModalOpen : bool;
  taskToEdit : option Task;
  alerts : list string
}.

Definition initial : Page :=
  {| tasks := []; developers := []; loading := true; error := None;
     filterStatus := "All"; filterPriority := "All"; filterAssignee := "All";
     isCreateModalOpen := false; taskToEdit := None; alerts := [] |}.

Definition setTasks (f : list Task -> list Task) (p : Page) : Page :=
  {| tasks := f (tasks p); developers := developers p; loading := loading p;
     error := error p; filterStatus := filterStatus p;
     filterPriority := filterPriority p; filterAssignee := filterAssignee p;
     isCreateModalOpen := isCreateModalOpen p; taskToEdit := taskToEdit p;
     alerts := alerts p |}.
Definition setDevelopers (v : list UserData) (p : Page) : Page :=
  {| tasks := tasks p; developers := v; loading := loading p;
     error := error p; filterStatus := filterStatus p;
     filterPriority := filterPriority p; filterAssignee := filterAssignee p;
     isCreateModalOpen := isCreateModalOpen p; taskToEdit := taskToEdit p;
     alerts := alerts p |}.
Definition setLoading (v : bool) (p : Page) : Page :=
  {| tasks := tasks p; developers := developers p; loading := v;
     error := error p; filterStatus := filterStatus p;
     filterPriority := filterPriority p; filterAssignee := filterAssignee p;
     isCreateModalOpen := isCreateModalOpen p; taskToEdit := taskToEdit p;
     alerts := alerts p |}.
Definition setError (v : option string) (p : Page) : Page :=
  {| tasks := tasks p; developers := developers p; loading := loading p;
     error := v; filterStatus := filterStatus p;
     filterPriority := filterPriority p; filterAssignee := filterAssignee p;
     isCreateModalOpen := isCreateModalOpen p; taskToEdit := taskToEdit p;
     alerts := alerts p |}.
Definition setFilterStatus (v : string) (p : Page) : Page :=
  {| tasks := tasks p; developers := developers p; loading := loading p;
     error := error p; filterStatus := v;
     filterPriority := filterPriority p; filterAssignee := filterAssignee p;
     isCreateModalOpen := isCreateModalOpen p; taskToEdit := taskToEdit p;
     alerts := alerts p |}.
Definition setFilterPriority (v : string) (p : Page) : Page :=
  {| tasks := tasks p; developers := developers p; loading := loading p;
     error := error p; filterStatus := filterStatus p;
     filterPriority := v; filterAssignee := filterAssignee p;
     isCreateModalOpen := isCreateModalOpen p; taskToEdit := taskToEdit p;
     alerts := alerts p |}.
Definition setFilterAssignee (v : string) (p : Page) : Page :=
  {| tasks := tasks p; developers := developers p; loading := loading p;
     error := error p; filterStatus := filterStatus p;
     filterPriority := filterPriority p; filterAssignee := v;
     isCreateModalOpen := isCreateModalOpen p; taskToEdit := taskToEdit p;
     alerts := alerts p |}.
Definition setIsCreateModalOpen (v : bool) (p : Page) : Page :=
  {| tasks := tasks p; developers := developers p; loading := loading p;
     error := error p; filterStatus := filterStatus p;
     filterPriority := filterPriority p; filterAssignee := filterAssignee p;
     isCreateModalOpen := v; taskToEdit := taskToEdit p;
     alerts := alerts p |}.
Definition setTaskToEdit (v : option Task) (p : Page) : Page :=
  {| tasks := tasks p; developers := developers p; loading := loading p;
     error := error p; filterStatus := filterStatus p;
     filterPriority := filterPriority p; filterAssignee := filterAssignee p;
     isCreateModalOpen := isCreateModalOpen p; taskToEdit := v;
     alerts := alerts p |}.
(** [alert(message)] *)
Definition alert (message : string) (p : Page) : Page :=
  {| tasks := tasks p; developers := developers p; loading := loading p;
     error := error p; filterStatus := filterStatus p;
     filterPriority := filterPriority p; filterAssignee := filterAssignee p;
     isCreateModalOpen := isCreateModalOpen p; taskToEdit := taskToEdit p;
     alerts := alerts p ++ [message] |}.

(** One constructor per [await] of the page. *)
Inductive Frame : Type -> Type :=
| fetchData_get_tasks : Frame (list Task)
    (* fetchData: await apiClient.get("/admin/tasks") *)
| fetchData_get_developers : Frame (list UserData)
    (* fetchData: await apiClient.get("/admin/developers") *)
| handleApprove_put (taskId : string) : Frame unit
    (* handleApprove: await apiClient.put(`/admin/tasks/${taskId}/approve`, {}) *)
| handleDelete_delete (taskId : string) : Frame unit.
    (* handleDelete: await apiClient.delete(`/admin/tasks/${taskId}`) *)

Definition awaited (R : Type) (f : Frame R) : ApiCall :=
  match f with
  | fetchData_get_tasks =>
      {| call_method := "GET"; call_endpoint := "/admin/tasks"; call_body := [] |}
  | fetchData_get_developers =>
      {| call_method := "GET"; call_endpoint := "/admin/developers"; call_body := [] |}
  | handleApprove_put id =>
      {| call_method := "PUT"; call_endpoint := "/admin/tasks/" ++ id ++ "/approve";
         call_body := [] |}
  | handleDelete_delete id =>
      {| call_method := "DELETE"; call_endpoint := "/admin/tasks/" ++ id;
         call_body := [] |}
  end.

(** [fetchData], up to its first [await]. *)
Definition fetchData (p : Page) : Page * Suspension Frame :=
  (setError None (setLoading true p), Pending fetchData_get_tasks).

(** The [catch] and [finally] of [fetchData]. *)
Definition fetchData_failed (message : string) (p : Page) : Page :=
  setLoading false (setError (Some (message_or message "Failed to fetch data.")) p).

(** [handleApprove], up to its [await]. *)
Definition handleApprove (id : string) (p : Page) : Page * Suspension Frame :=
  (p, Pending (handleApprove_put id)).

(** [handleDelete], up to its [await]; [confirmed] is what the user answers
    to the [confirm] dialog. *)
Definition handleDelete (id : string) (confirmed : bool) (p : Page)
  : Page * Suspension Frame :=
  if negb confirmed then (p, Finished)
  else (p, Pending (handleDelete_delete id)).

Definition settle (R : Type) (f : Frame R)
  : Settled R -> Page -> Page * Suspension Frame :=
  match f in Frame R0 return Settled R0 -> Page -> Page * Suspension Frame with
  | fetchData_get_tasks => fun o p =>
      match o with
      | Resolved taskData =>
          (setTasks (fun _ => taskData) p, Pending fetchData_get_developers)
      | Rejected message => (fetchData_failed message p, Finished)
      end
  | fetchData_get_developers => fun o p =>
      match o with
      | Resolved devData => (setLoading false (setDevelopers devData p), Finished)
      | Rejected message => (fetchData_failed message p, Finished)
      end
  | handleApprove_put id => fun o p =>
      match o with
      | Resolved _ =>
          (setTasks (map (fun task => if taskId task =? id then approved task else task)) p,
           Finished)
      | Rejected _ =>
          (* console.error *)
          (alert "Failed to approve task." p, Finished)
      end
  | handleDelete_delete id => fun o p =>
      match o with
      | Resolved _ =>
          (setTasks (filter (fun task => negb (taskId task =? id))) p, Finished)
      | Rejected _ =>
          (* console.error *)
          (alert "Failed to delete task." p, Finished)
      end
  end.

(** The filter of [filteredTasks]. *)
Definition matches (p : Page) (task : Task) : bool :=
  let matchesStatus := (filterStatus p =? "All") || (status task =? filterStatus p) in
  let matchesPriority := (filterPriority p =? "All") || (priority task =? filterPriority p) in
  let matchesAssignee :=
    if filterAssignee p =? "Unassigned" then
      match assigneeId task with None => true | Some _ => false end
    else if negb (filterAssignee p =? "All") then
      match assigneeId task with Some a => a =? filterAssignee p | None => false end
    else true in
  matchesStatus && matchesPriority && matchesAssignee.

Definition filteredTasks (p : Page) : list Task := filter (matches p) (tasks p).

(** The "Clear Filters" button is rendered. *)
Definition shows_Clear_Filters (p : Page) : bool :=
  negb (filterStatus p =? "All") || negb (filterPriority p =? "All")
  || negb (filterAssignee p =? "All").

(** Its [onClick]. *)
Definition clearFilters (p : Page) : Page :=
  setFilterAssignee "All" (setFilterPriority "All" (setFilterStatus "All" p)).

(** The list is rendered: [!loading && !error]. *)
Definition shows_list (p : Page) : bool :=
  negb (loading p) &&
  match error p with
  | Some message => message =? ""
  | None => true
  end.

(** The "Approve" button of a card is rendered. *)
Definition shows_Approve (task : Task) : bool := negb (isApproved task).

(** What the user can make happen. *)
Inductive Event : Type :=
| mount
| onTaskCreated
| onTaskUpdated
| select_status (v : string)
| select_priority (v : string)
| select_assignee (v : string)
| click_Clear_Filters
| click_Approve (id : string)
| click_Delete (id : string) (confirmed : bool)
| click_Edit (task : Task)
| click_Create_Manual_Task
| close_CreateTaskModal
| close_EditTaskModal.

Definition start (e : Event) (p : Page) : Page * Suspension Frame :=
  match e with
  | mount => fetchData p
  | onTaskCreated => fetchData p
  | onTaskUpdated => fetchData p
  | select_status v => (setFilterStatus v p, Finished)
  | select_priority v => (setFilterPriority v p, Finished)
  | select_assignee v => (setFilterAssignee v p, Finished)
  | click_Clear_Filters => (clearFilters p, Finished)
  | click_Approve id => handleApprove id p
  | click_Delete id confirmed => handleDelete id confirmed p
  | click_Edit task => (setTaskToEdit (Some task) p, Finished)
  | click_Create_Manual_Task => (setIsCreateModalOpen true p, Finished)
  | close_CreateTaskModal => (setIsCreateModalOpen false p, Finished)
  | close_EditTaskModal => (setTaskToEdit None p, Finished)
  end.

(** How the backend answers while one event is handled. *)
Record Outcomes : Type := {
  get_tasks_outcome : Settled (list Task);
  get_developers_outcome : Settled (list UserData);
  put_approve_outcome : Settled unit;
  delete_outcome : Settled unit
}.

Definition answer (env : Outcomes) (R : Type) (f : Frame R) : Settled R :=
  match f in Frame R0 return Settled R0 with
  | fetchData_get_tasks => get_tasks_outcome env
  | fetchData_get_developers => get_developers_outcome env
  | handleApprove_put _ => put_approve_outcome env
  | handleDelete_delete _ => delete_outcome env
  end.

(** One event handled to completion, with nothing else in between. *)
Definition handle (e : Event) (env : Outcomes) (p : Page)
  : list (Page * Suspension Frame) :=
  drive settle answer 2 env (start e p).

Definition after (e : Event) (env : Outcomes) (p : Page) : Page :=
  fst (outcome (handle e env p) p).

Definition calls (tr : list (Page * Suspension Frame)) : list ApiCall :=
  flat_map (fun sp => match snd sp with
                      | Finished => []
                      | Pending f => [awaited f]
                      end) tr.

End AdminReviewPage.

(** ** UserManagementPage *)
Module UserManagementPage.

Record UserData : Type := {
  user_uid : string;
  name : string;
  email : string;
  role : string;
  skills : list string
}.

(** [{ ...u, role: newRole }] *)
Definition with_role (newRole : string) (u : UserData) : UserData :=
  {| user_uid := user_uid u; name := name u; email := email u;
     role := newRole; skills := skills u |}.

(** The [useState] cells of the page, the [alert] dialogs it has shown,
    oldest first, and the number of [setTimeout] callbacks still to run. *)
Record Page : Type := {
  users : list UserData;
  loading : bool;
  error : option string;
  success : option string;
  alerts : list string;
  timers : nat
}.

Definition initial : Page :=
  {| users := []; loading := true; error := None; success := None;
     alerts := []; timers := 0 |}.

Definition setUsers (f : list UserData -> list UserData) (p : Page) : Page :=
  {| users := f (users p); loading := loading p; error := error p;
     success := success p; alerts := alerts p; timers := timers p |}.
Definition setLoading (v : bool) (p : Page) : Page :=
  {| users := users p; loading := v; error := error p;
     success := success p; alerts := alerts p; timers := timers p |}.
Definition setError (v : option string) (p : Page) : Page :=
  {| users := users p; loading := loading p; error := v;
     success := success p; alerts := alerts p; timers := timers p |}.
Definition setSuccess (v : option string) (p : Page) : Page :=
  {| users := users p; loading := loading p; error := error p;
     success := v; alerts := alerts p; timers := timers p |}.
Definition alert (message : string) (p : Page) : Page :=
  {| users := users p; loading := loading p; error := error p;
     success := success p; alerts := alerts p ++ [message]; timers := timers p |}.
(** [setTimeout(() => setSuccess(null), 3000)] *)
Definition setTimeout (p : Page) : Page :=
  {| users := users p; loading := loading p; error := error p;
     success := success p; alerts := alerts p; timers := S (timers p) |}.

Inductive Frame : Type -> Type :=
| fetchUsers_get : Frame (list UserData)
    (* fetchUsers: await apiClient.get("/admin/users") *)
| handleRoleChange_put (userId newRole : string) : Frame unit.
    (* handleRoleChange: await apiClient.put(`/admin/users/${userId}/role`, { role: newRole }) *)

Definition awaited (R : Type) (f : Frame R) : ApiCall :=
  match f with
  | fetchUsers_get =>
      {| call_method := "GET"; call_endpoint := "/admin/users"; call_body := [] |}
  | handleRoleChange_put userId newRole =>
      {| call_method := "PUT"; call_endpoint := "/admin/users/" ++ userId ++ "/role";
         call_body := [("role", newRole)] |}
  end.

(** [fetchUsers], up to its [await]. *)
Definition fetchUsers (p : Page) : Page * Suspension Frame :=
  (setLoading true p, Pending fetchUsers_get).

(** [userId === currentUser?.uid] *)
Definition is_self (currentUser : option FirebaseUser) (userId : string) : bool :=
  match currentUser with
  | Some u => userId =? uid u
  | None => false
  end.

(** [handleRoleChange], up to its [await]; [currentUser] is the [user] of
    [useAuth]. *)
Definition handleRoleChange (currentUser : option FirebaseUser) (userId newRole : string)
    (p : Page) : Page * Suspension Frame :=
  if is_self currentUser userId then
    (alert "You cannot change your own role here." p, Finished)
  else (p, Pending (handleRoleChange_put userId newRole)).

Definition settle (R : Type) (f : Frame R)
  : Settled R -> Page -> Page * Suspension Frame :=
  match f in Frame R0 return Settled R0 -> Page -> Page * Suspension Frame with
  | fetchUsers_get => fun o p =>
      match o with
      | Resolved data => (setLoading false (setError None (setUsers (fun _ => data) p)), Finished)
      | Rejected message =>
          (setLoading false (setError (Some (message_or message "Failed to load users.")) p),
           Finished)
      end
  | handleRoleChange_put userId newRole => fun o p =>
      match o with
      | Resolved _ =>
          (setTimeout
             (setUsers (map (fun u => if user_uid u =? userId then with_role newRole u else u))
                (setSuccess (Some ("User role updated to " ++ newRole)) p)),
           Finished)
      | Rejected _ =>
          (* console.error *)
          (alert "Failed to update role." p, Finished)
      end
  end.

(** A timer set by [handleRoleChange] runs: [setSuccess(null)]. *)
Definition timer_fires (p : Page) : Page :=
  {| users := users p; loading := loading p; error := error p;
     success := None; alerts := alerts p; timers := pred (timers p) |}.

(** The [select] of a row is disabled. *)
Definition select_disabled (currentUser : option FirebaseUser) (u : UserData) : bool :=
  is_self currentUser (user_uid u).

(** The table is rendered: [!loading && !error]. *)
Definition shows_table (p : Page) : bool :=
  negb (loading p) &&
  match error p with
  | Some message => message =? ""
  | None => true
  end.

Inductive Event : Type :=
| mount
| change_role (userId newRole : string).

Definition start (currentUser : option FirebaseUser) (e : Event) (p : Page)
  : Page * Suspension Frame :=
  match e with
  | mount => fetchUsers p
  | change_role userId newRole => handleRoleChange currentUser userId newRole p
  end.

Record Outcomes : Type := {
  get_users_outcome : Settled (list UserData);
  put_role_outcome : Settled unit
}.

Definition answer (env : Outcomes) (R : Type) (f : Frame R) : Settled R :=
  match f in Frame R0 return Settled R0 with
  | fetchUsers_get => get_users_outcome env
  | handleRoleChange_put _ _ => put_role_outcome env
  end.

Definition handle (currentUser : option FirebaseUser) (e : Event) (env : Outcomes) (p : Page)
  : list (Page * Suspension Frame) :=
  drive settle answer 1 env (start currentUser e p).

Definition after (currentUser : option FirebaseUser) (e : Event) (env : Outcomes) (p : Page)
  : Page :=
  fst (outcome (handle currentUser e env p) p).

Definition calls (tr : list (Page * Suspension Frame)) : list ApiCall :=
  flat_map (fun sp => match snd sp with
                      | Finished => []
                      | Pending f => [awaited f]
                      end) tr.

End UserManagementPage.

(** ** ProfilePage: the skills of a developer *)
From Stdlib Require Import NArith.

Module ProfilePage.

(** The skills text is cut at commas and trimmed, which are operations on
    the UTF-16 code units of a string: here a string is the list of its code
    units. *)
Definition JSString : Type := list N.

Definition comma : N := 44%N.
Definition space : N := 32%N.

(** White space and line terminators, the code units [trim] strips: TAB, LF,
    VT, FF, CR, SP, NBSP, U+1680, U+2000 to U+200A, LS, PS, U+202F, U+205F,
    U+3000 and the byte order mark. *)
Definition is_white (c : N) : bool :=
  ((9 <=? c) && (c <=? 13))%N || (c =? 32)%N || (c =? 160)%N || (c =? 5760)%N
  || ((8192 <=? c) && (c <=? 8202))%N || (c =? 8232)%N || (c =? 8233)%N
  || (c =? 8239)%N || (c =? 8287)%N || (c =? 12288)%N || (c =? 65279)%N.

Fixpoint trimStart (s : JSString) : JSString :=
  match s with
  | [] => []
  | c :: rest => if is_white c then trimStart rest else s
  end.

Definition trimEnd (s : JSString) : JSString := rev (trimStart (rev s)).

(** [s.trim()] *)
Definition trim (s : JSString) : JSString := trimEnd (trimStart s).

(** [s.split(',')]: the pieces between the commas, at least one. *)
Fixpoint split (s : JSString) : list JSString :=
  match s with
  | [] => [[]]
  | c :: rest =>
      if (c =? comma)%N then [] :: split rest
      else match split rest with
           | piece :: pieces => (c :: piece) :: pieces
           | [] => [[c]]
           end
  end.

(** [a.join(', ')] *)
Fixpoint join (a : list JSString) : JSString :=
  match a with
  | [] => []
  | [x] => x
  | x :: rest => (x ++ comma :: space :: join rest)%list
  end.

(** [skillsInput.split(',').map(s => s.trim()).filter(s => s.length > 0)] *)
Definition newSkillsArray (skillsInput : JSString) : list JSString :=
  filter (fun x => negb (Nat.eqb (List.length x) 0)) (map trim (split skillsInput)).

Record UserProfile : Type := {
  profile_uid : string;
  email : string;
  name : string;
  role : string;
  skills : list JSString
}.

(** The reply of [GET /users/me]; its [skills] may be missing. *)
Record ProfileData : Type := {
  data_uid : string;
  data_email : string;
  data_name : string;
  data_role : string;
  data_skills : option (list JSString)
}.

(** [data.skills || []] *)
Definition skills_or_empty (data : ProfileData) : list JSString :=
  match data_skills data with
  | Some l => l
  | None => []
  end.

Inductive MessageType : Type := success | error.

Record Message : Type := { type : MessageType; text : string }.

Record Page : Type := {
  profile : option UserProfile;
  loading : bool;
  skillsInput : JSString;
  isSaving : bool;
  message : option Message
}.

Definition initial : Page :=
  {| profile := None; loading := true; skillsInput := []; isSaving := false;
     message := None |}.

Definition setProfile (v : option UserProfile) (p : Page) : Page :=
  {| profile := v; loading := loading p; skillsInput := skillsInput p;
     isSaving := isSaving p; message := message p |}.
Definition setLoading (v : bool) (p : Page) : Page :=
  {| profile := profile p; loading := v; skillsInput := skillsInput p;
     isSaving := isSaving p; message := message p |}.
Definition setSkillsInput (v : JSString) (p : Page) : Page :=
  {| profile := profile p; loading := loading p; skillsInput := v;
     isSaving := isSaving p; message := message p |}.
Definition setIsSaving (v : bool) (p : Page) : Page :=
  {| profile := profile p; loading := loading p; skillsInput := skillsInput p;
     isSaving := v; message := message p |}.
Definition setMessage (v : option Message) (p : Page) : Page :=
  {| profile := profile p; loading := loading p; skillsInput := skillsInput p;
     isSaving := isSaving p; message := v |}.

Inductive Frame : Type -> Type :=
| fetchProfile_get : Frame ProfileData
    (* fetchProfile: await apiClient.get('/users/me') *)
| handleSaveSkills_put (profile : option UserProfile) (newSkillsArray : list JSString)
    : Frame unit.
    (* handleSaveSkills: await apiClient.put('/users/me/skills', { skills: newSkillsArray }) *)

(** The skills a suspended [handleSaveSkills] has sent. *)
Definition skills_sent (p : Suspension Frame) : option (list JSString) :=
  match p with
  | Pending (handleSaveSkills_put _ l) => Some l
  | _ => None
  end.

(** [fetchProfile], up to its [await]. *)
Definition fetchProfile (p : Page) : Page * Suspension Frame :=
  (setLoading true p, Pending fetchProfile_get).

(** [handleSaveSkills], up to its [await]; [profile] read after the [await]
    is the one of the render the click belongs to. *)
Definition handleSaveSkills (p : Page) : Page * Suspension Frame :=
  (setMessage None (setIsSaving true p),
   Pending (handleSaveSkills_put (profile p) (newSkillsArray (skillsInput p)))).

Definition settle (R : Type) (f : Frame R)
  : Settled R -> Page -> Page * Suspension Frame :=
  match f in Frame R0 return Settled R0 -> Page -> Page * Suspension Frame with
  | fetchProfile_get => fun o p =>
      match o with
      | Resolved data =>
          (setLoading false
             (setSkillsInput (join (skills_or_empty data))
                (setProfile (Some {| profile_uid := data_uid data; email := data_email data;
                                     name := data_name data; role := data_role data;
                                     skills := skills_or_empty data |}) p)),
           Finished)
      | Rejected _ =>
          (setLoading false
             (setMessage (Some {| type := error; text := "Failed to fetch user data." |}) p),
           Finished)
      end
  | handleSaveSkills_put prof l => fun o p =>
      match o with
      | Resolved _ =>
          let p :=
            match prof with
            | Some pr =>
                setProfile (Some {| profile_uid := profile_uid pr; email := email pr;
                                    name := name pr; role := role pr; skills := l |}) p
            | None => p
            end in
          (setIsSaving false
             (setMessage (Some {| type := success; text := "Skills updated successfully!" |}) p),
           Finished)
      | Rejected reason =>
          (setIsSaving false
             (setMessage (Some {| type := error;
                                  text := message_or reason "Failed to save skills." |}) p),
           Finished)
      end
  end.

(** A skill as the page saves it: not empty, without a comma, and with no
    white space at either end. *)
Definition tidy (x : JSString) : Prop :=
  x <> [] /\ ~ In comma x /\ trim x = x.

End ProfilePage.

(** ** AdminDashboard: projects and task generation *)
Module AdminDashboard.

Record Project : Type := { projectId : string; title : string }.

Record Page : Type := {
  srsText : string;
  selectedProject : string;
  loading : bool;
  error : option string;
  success : option string;
  projects : list Project;
  isProjectModalOpen : bool
}.

Definition initial : Page :=
  {| srsText := ""; selectedProject := ""; loading := false; error := None;
     success := None; projects := []; isProjectModalOpen := false |}.

Definition setSrsText (v : string) (p : Page) : Page :=
  {| srsText := v; selectedProject := selectedProject p; loading := loading p;
     error := error p; success := success p; projects := projects p;
     isProjectModalOpen := isProjectModalOpen p |}.
Definition setSelectedProject (v : string) (p : Page) : Page :=
  {| srsText := srsText p; selectedProject := v; loading := loading p;
     error := error p; success := success p; projects := projects p;
     isProjectModalOpen := isProjectModalOpen p |}.
Definition setLoading (v : bool) (p : Page) : Page :=
  {| srsText := srsText p; selectedProject := selectedProject p; loading := v;
     error := error p; success := success p; projects := projects p;
     isProjectModalOpen := isProjectModalOpen p |}.
Definition setError (v : option string) (p : Page) : Page :=
  {| srsText := srsText p; selectedProject := selectedProject p; loading := loading p;
     error := v; success := success p; projects := projects p;
     isProjectModalOpen := isProjectModalOpen p |}.
Definition setSuccess (v : option string) (p : Page) : Page :=
  {| srsText := srsText p; selectedProject := selectedProject p; loading := loading p;
     error := error p; success := v; projects := projects p;
     isProjectModalOpen := isProjectModalOpen p |}.
Definition setProjects (v : list Project) (p : Page) : Page :=
  {| srsText := srsText p; selectedProject := selectedProject p; loading := loading p;
     error := error p; success := success p; projects := v;
     isProjectModalOpen := isProjectModalOpen p |}.

(** The reply of [POST /admin/generate-tasks], of which [message] is read. *)
Record GenerateResult : Type := { result_message : string }.

(** One constructor per [await]; [fetchProjects] reads [selectedProject]
    after its [await], and what it reads is the value of the render its
    closure belongs to, which the frame carries. *)
Inductive Frame : Type -> Type :=
| fetchProjects_get (selectedProject : string) : Frame (list Project)
    (* fetchProjects: await apiClient.get("/projects") *)
| handleGenerateTasks_post (srsText selectedProject : string) : Frame GenerateResult
    (* handleGenerateTasks: await apiClient.post("/admin/generate-tasks", {...}) *)
| handleDeleteProject_delete (selectedProject : string) : Frame unit.
    (* handleDeleteProject: await apiClient.delete(`/projects/${selectedProject}`) *)

Definition awaited (R : Type) (f : Frame R) : ApiCall :=
  match f with
  | fetchProjects_get _ =>
      {| call_method := "GET"; call_endpoint := "/projects"; call_body := [] |}
  | handleGenerateTasks_post srs project =>
      {| call_method := "POST"; call_endpoint := "/admin/generate-tasks";
         call_body := [("srs_text", srs); ("project_id", project)] |}
  | handleDeleteProject_delete project =>
      {| call_method := "DELETE"; call_endpoint := "/projects/" ++ project;
         call_body := [] |}
  end.

(** [fetchProjects], up to its [await]. *)
Definition fetchProjects (p : Page) : Page * Suspension Frame :=
  (p, Pending (fetchProjects_get (selectedProject p))).

(** [handleGenerateTasks], up to its [await]. *)
Definition handleGenerateTasks (p : Page) : Page * Suspension Frame :=
  if srsText p =? "" then (setError (Some "Please paste your SRS text.") p, Finished)
  else if selectedProject p =? "" then (setError (Some "Please select a project.") p, Finished)
  else (setSuccess None (setError None (setLoading true p)),
        Pending (handleGenerateTasks_post (srsText p) (selectedProject p))).

(** [handleDeleteProject], up to its [await]; [confirmed] is what the user
    answers to the [confirm] dialog. *)
Definition handleDeleteProject (confirmed : bool) (p : Page) : Page * Suspension Frame :=
  if selectedProject p =? "" then (p, Finished)
  else if negb confirmed then (p, Finished)
  else (p, Pending (handleDeleteProject_delete (selectedProject p))).

Definition settle (R : Type) (f : Frame R)
  : Settled R -> Page -> Page * Suspension Frame :=
  match f in Frame R0 return Settled R0 -> Page -> Page * Suspension Frame with
  | fetchProjects_get selected => fun o p =>
      match o with
      | Resolved data =>
          let p := setProjects data p in
          match data with
          | first :: _ =>
              if selected =? "" then (setSelectedProject (projectId first) p, Finished)
              else (p, Finished)
          | [] => (p, Finished)
          end
      | Rejected _ =>
          (* console.error *)
          (p, Finished)
      end
  | handleGenerateTasks_post _ _ => fun o p =>
      match o with
      | Resolved result =>
          (setLoading false
             (setSrsText ""
                (setSuccess (Some (message_or (result_message result)
                                     "Tasks generated successfully!")) p)),
           Finished)
      | Rejected reason =>
          (setLoading false
             (setError (Some (message_or reason "Failed to generate tasks.")) p),
           Finished)
      end
  | handleDeleteProject_delete selected => fun o p =>
      match o with
      | Resolved _ =>
          (* fetchProjects() is the one of the render of the click *)
          (setSelectedProject "" (setSuccess (Some "Project deleted successfully.") p),
           Pending (fetchProjects_get selected))
      | Rejected _ =>
          (setError (Some "Failed to delete project.") p, Finished)
      end
  end.

Inductive Event : Type :=
| mount
| onProjectCreated
| change_project (v : string)
| change_srs (v : string)
| click_Generate
| click_Delete_Project (confirmed : bool).

Definition start (e : Event) (p : Page) : Page * Suspension Frame :=
  match e with
  | mount => fetchProjects p
  | onProjectCreated => fetchProjects p
  | change_project v => (setSelectedProject v p, Finished)
  | change_srs v => (setSrsText v p, Finished)
  | click_Generate => handleGenerateTasks p
  | click_Delete_Project confirmed => handleDeleteProject confirmed p
  end.

Record Outcomes : Type := {
  get_projects_outcome : Settled (list Project);
  post_generate_outcome : Settled GenerateResult;
  delete_project_outcome : Settled unit
}.

Definition answer (env : Outcomes) (R : Type) (f : Frame R) : Settled R :=
  match f in Frame R0 return Settled R0 with
  | fetchProjects_get _ => get_projects_outcome env
  | handleGenerateTasks_post _ _ => post_generate_outcome env
  | handleDeleteProject_delete _ => delete_project_outcome env
  end.

Definition handle (e : Event) (env : Outcomes) (p : Page)
  : list (Page * Suspension Frame) :=
  drive settle answer 2 env (start e p).

Definition after (e : Event) (env : Outcomes) (p : Page) : Page :=
  fst (outcome (handle e env p) p).

Definition calls (tr : list (Page * Suspension Frame)) : list ApiCall :=
  flat_map (fun sp => match snd sp with
                      | Finished => []
                      | Pending f => [awaited f]
                      end) tr.

(** The "Delete Selected Project" button is disabled. *)
Definition delete_disabled (p : Page) : bool := selectedProject p =? "".

End AdminDashboard.

(** ** Further vocabulary *)
Module SessionSpec2.
Import AuthContext SessionSpec.

(** A token never stands without a user. *)
Definition token_has_user (s : AuthState) : Prop :=
  idToken s <> None -> user s <> None.

Definition token_kept (sp : AuthState * Suspension Frame) : Prop :=
  token_has_user (fst sp) /\ (in_callback (snd sp) = true -> user (fst sp) <> None).

(** A backend that answers every request with the same response. *)
Definition backend_answering (J : Type) (response : ApiClient.Response J)
  : ApiClient.World J :=
  {| ApiClient.API_BASE_URL := "http://localhost:8000";
     ApiClient.auth_currentUser := Some alice;
     ApiClient.getIdToken := fun _ => Resolved "jwt";
     ApiClient.fetch := fun _ _ => Resolved response |}.

Definition ok_200 : ApiClient.Response UserInfo :=
  {| ApiClient.ok := true; ApiClient.status := 200;
     ApiClient.json := Resolved {| userInfo_role := Some developer |};
     ApiClient.json_value :=
       Resolved (ApiClient.JObject [("role", ApiClient.JString "developer")]) |}.

(** A refusal with its reason in [detail]. *)
Definition forbidden_403 : ApiClient.Response UserInfo :=
  {| ApiClient.ok := false; ApiClient.status := 403;
     ApiClient.json := Rejected "unused";
     ApiClient.json_value :=
       Resolved (ApiClient.JObject
                   [("detail", ApiClient.JString "Not enough permissions")]) |}.

(** A validation failure, whose [detail] is a list of objects. *)
Definition unprocessable_422 : ApiClient.Response UserInfo :=
  {| ApiClient.ok := false; ApiClient.status := 422;
     ApiClient.json := Rejected "unused";
     ApiClient.json_value :=
       Resolved (ApiClient.JObject
                   [("detail",
                     ApiClient.JArray
                       [ApiClient.JObject [("msg", ApiClient.JString "field required")]])]) |}.

(** Failures whose body is [{"detail": []}], and [null]. *)
Definition empty_detail_500 : ApiClient.Response UserInfo :=
  {| ApiClient.ok := false; ApiClient.status := 500;
     ApiClient.json := Rejected "unused";
     ApiClient.json_value :=
       Resolved (ApiClient.JObject [("detail", ApiClient.JArray [])]) |}.

Definition null_body_500 : ApiClient.Response UserInfo :=
  {| ApiClient.ok := false; ApiClient.status := 500;
     ApiClient.json := Rejected "unused";
     ApiClient.json_value := Resolved ApiClient.JNull |}.

(** Options with which a caller tries to set everything itself. *)
Definition meddling_options : ApiClient.RequestInit :=
  {| ApiClient.method := Some "DELETE";
     ApiClient.body := Some [("role", "admin")];
     ApiClient.headers := [("authorization", "Bearer forged");
                           ("Authorization", "Bearer forged too");
                           ("CONTENT-TYPE", "text/plain");
                           ("X-Trace", "1")] |}.
End SessionSpec2.

Module ReviewSpec.
Import AdminReviewPage.

(** The page with only one of its three filters left on. *)
Definition only_status (p : Page) : Page :=
  setFilterAssignee "All" (setFilterPriority "All" p).
Definition only_priority (p : Page) : Page :=
  setFilterAssignee "All" (setFilterStatus "All" p).
Definition only_assignee (p : Page) : Page :=
  setFilterPriority "All" (setFilterStatus "All" p).

(** The [map] of [handleApprove] and the [filter] of [handleDelete]. *)
Definition approve (id : string) (l : list Task) : list Task :=
  map (fun task => if taskId task =? id then approved task else task) l.
Definition remove (id : string) (l : list Task) : list Task :=
  filter (fun task => negb (taskId task =? id)) l.

(** Scenario data. *)
Definition login_page : Task :=
  {| taskId := "a1"; projectId := "p1"; title := "Login page";
     description := "Email and password"; status := "To-Do"; priority := "High";
     creator := "AI"; assigneeId := Some "dev-7"; isApproved := false |}.

Definition audit_log : Task :=
  {| taskId := "a2"; projectId := "p1"; title := "Audit log";
     description := "Who did what"; status := "In Review"; priority := "Low";
     creator := "AI"; assigneeId := None; isApproved := false |}.

Definition inbox : Page :=
  {| tasks := [login_page; audit_log]; developers := [{| uid := "dev-7"; name := "Dana" |}];
     loading := false; error := None;
     filterStatus := "All"; filterPriority := "All"; filterAssignee := "dev-7";
     isCreateModalOpen := false; taskToEdit := None; alerts := [] |}.
End ReviewSpec.

Module UsersSpec.
Import UserManagementPage.

Definition dana : UserData :=
  {| user_uid := "dev-7"; name := "Dana"; email := "dana@example.org";
     role := "developer"; skills := ["python"] |}.

Definition root : UserData :=
  {| user_uid := "alice"; name := "Alice"; email := "alice@example.org";
     role := "admin"; skills := [] |}.

Definition directory : Page :=
  {| users := [root; dana]; loading := false; error := None; success := None;
     alerts := []; timers := 0 |}.

Definition update_ok : Outcomes :=
  {| get_users_outcome := Rejected "unused"; put_role_outcome := Resolved tt |}.
End UsersSpec.

Module ProfileSpec.
Import ProfilePage.

(** "React" and "Unit Testing" as code units. *)
Definition React : JSString := [82; 101; 97; 99; 116]%N.
Definition Unit_Testing : JSString :=
  [85; 110; 105; 116; 32; 84; 101; 115; 116; 105; 110; 103]%N.

Definition dana_profile : ProfileData :=
  {| data_uid := "dev-7"; data_email := "dana@example.org"; data_name := "Dana";
     data_role := "developer"; data_skills := Some [React; Unit_Testing] |}.
End ProfileSpec.

Module ProjectsSpec.
Import AdminDashboard.

Definition website : Project := {| projectId := "p1"; title := "Website" |}.
Definition billing : Project := {| projectId := "p2"; title := "Billing" |}.

Definition working_on_billing : Page :=
  {| srsText := ""; selectedProject := "p2"; loading := false; error := None;
     success := None; projects := [website; billing]; isProjectModalOpen := false |}.

(** The backend deletes and then lists what is left. *)
Definition billing_deleted : Outcomes :=
  {| get_projects_outcome := Resolved [website];
     post_generate_outcome := Rejected "unused";
     delete_project_outcome := Resolved tt |}.
End ProjectsSpec.

(** * Properties *)

Unset Implicit Arguments.

(** ** The event loop *)
Section EventLoopFacts.
Variable St : Type.
Variable Frame : Type -> Type.
Variable settle : forall R, Frame R -> Settled R -> St -> St * Suspension Frame.
Variable Env : Type.
Variable answer : Env -> forall R, Frame R -> Settled R.

Lemma drive_head (fuel : nat) (env : Env) (sp : St * Suspension Frame) :
  nth_error (drive settle answer fuel env sp) 0 = Some sp.
Proof. destruct fuel; reflexivity. Qed.

(** A property of the hand-back points that every resumption keeps holds
    at all of them. *)
Lemma drive_Forall (P : St * Suspension Frame -> Prop) (env : Env) :
  (forall R (f : Frame R) s, P (s, Pending f) -> P (settle R f (answer env R f) s)) ->
  forall fuel sp, P sp -> Forall P (drive settle answer fuel env sp).
Proof.
  intros Hstep fuel.
  induction fuel as [|n IH]; intros [s p] Hsp; simpl.
  - constructor; [assumption|]. destruct p; constructor.
  - constructor; [assumption|].
    destruct p as [|R f]; [constructor|].
    apply Forall_forall. intros x Hx.
    specialize (IH (settle R f (answer env R f) s) (Hstep R f s Hsp)).
    rewrite Forall_forall in IH. now apply IH.
Qed.

Lemma outcome_In (fuel : nat) (env : Env) (sp : St * Suspension Frame) (s : St) :
  In (outcome (drive settle answer fuel env sp) s) (drive settle answer fuel env sp).
Proof.
  unfold outcome.
  destruct (drive settle answer fuel env sp) as [|x l] eqn:E.
  - destruct fuel; discriminate.
  - destruct (exists_last (l := x :: l)) as (l' & a & Hl); [discriminate|].
    rewrite Hl, last_last. apply in_or_app. right. now left.
Qed.

Lemma drive_outcome (P : St * Suspension Frame -> Prop) (env : Env) :
  (forall R (f : Frame R) s, P (s, Pending f) -> P (settle R f (answer env R f) s)) ->
  forall fuel sp s, P sp -> P (outcome (drive settle answer fuel env sp) s).
Proof.
  intros Hstep fuel sp s Hsp.
  pose proof (drive_Forall P env Hstep fuel sp Hsp) as HF.
  rewrite Forall_forall in HF. apply HF, outcome_In.
Qed.
End EventLoopFacts.

(** ** The session *)
Section SessionFacts.
Import AuthContext SessionSpec.

(** Every handler of [AuthProvider] returns: three resumptions are enough. *)
Lemma handle_completes (e : Event) (env : Outcomes) (s : AuthState) :
  snd (outcome (handle e env s) s) = Finished.
Proof.
  destruct env as [o1 o2 o3 o4].
  destruct e as [[u|]| |]; cbn; try reflexivity.
  destruct o3; cbn; [|reflexivity].
  destruct o4; cbn; reflexivity.
Qed.

Lemma after_In (e : Event) (env : Outcomes) (s : AuthState) :
  In (after e env s) (map fst (handle e env s)).
Proof. unfold after, handle. apply in_map, outcome_In. Qed.

Lemma start_user_kept (e : Event) (s : AuthState) :
  role_has_user s -> user_kept (start e s).
Proof.
  unfold user_kept, role_has_user.
  destruct e as [[u|]| |]; cbn; intros H; split; intros; try discriminate; auto.
Qed.

Lemma settle_user_kept (env : Outcomes) (R : Type) (f : Frame R) (s : AuthState) :
  user_kept (s, Pending f) -> user_kept (settle f (answer env f) s).
Proof.
  unfold user_kept, role_has_user. intros [Hr Hc].
  destruct f; cbn in *.
  - split; [assumption | discriminate].
  - destruct (signOut_outcome env); cbn; split; auto; discriminate.
  - destruct (getIdToken_outcome env); cbn; split; auto; discriminate.
  - destruct (get_users_me_outcome env); cbn; split; auto; discriminate.
  - destruct (signOut_outcome env); cbn; split; auto; discriminate.
Qed.

Lemma handle_role_has_user (e : Event) (env : Outcomes) (s : AuthState) :
  role_has_user s -> Forall user_kept (handle e env s).
Proof.
  intros H. unfold handle. apply drive_Forall.
  - intros R f s'. apply settle_user_kept.
  - now apply start_user_kept.
Qed.

Lemma session_role_has_user (evs : list (Event * Outcomes)) :
  forall s, role_has_user s -> Forall role_has_user (session evs s).
Proof.
  induction evs as [|[e env] rest IH]; intros s Hs; cbn [session].
  - constructor.
  - pose proof (handle_role_has_user e env s Hs) as HF.
    apply Forall_app. split.
    + apply Forall_forall. intros x Hx.
      apply in_map_iff in Hx. destruct Hx as (sp & <- & Hsp).
      rewrite Forall_forall in HF. now apply HF.
    + apply IH.
      destruct (in_map_iff fst (handle e env s) (after e env s)) as [Hin _].
      destruct (Hin (after_In e env s)) as (sp & Heq & Hsp).
      rewrite Forall_forall in HF. rewrite <- Heq. now apply HF.
Qed.

Lemma start_role_settled (e : Event) (env : Outcomes) (s : AuthState) :
  ready_has_role s -> concludes (e, env) = true -> role_settled env (start e s).
Proof.
  unfold role_settled, ready_has_role, concludes.
  destruct e as [[u|]| |]; cbn; intros H Hc; split; auto; try discriminate.
Qed.

Lemma settle_role_settled (env : Outcomes) (R : Type) (f : Frame R) (s : AuthState) :
  role_settled env (s, Pending f) -> role_settled env (settle f (answer env f) s).
Proof.
  unfold role_settled, ready_has_role, lookup_concludes.
  intros [Hr Hf]. destruct f; cbn in *.
  - split; [assumption | exact I].
  - destruct (signOut_outcome env); cbn; split; auto.
  - destruct Hf as [Hl Hc].
    destruct (getIdToken_outcome env); cbn; split; auto.
  - destruct Hf as [Hl Hc].
    destruct (get_users_me_outcome env) as [userInfo|e]; cbn; split; auto.
    intros _ _. destruct (userInfo_role userInfo); [discriminate | discriminate Hc].
  - destruct (signOut_outcome env); cbn in *; [|discriminate Hf].
    split; auto.
Qed.

Lemma session_ready_has_role (evs : list (Event * Outcomes)) :
  forall s, ready_has_role s -> forallb concludes evs = true ->
            Forall ready_has_role (session evs s).
Proof.
  induction evs as [|[e env] rest IH]; intros s Hs Hc; cbn [session].
  - constructor.
  - cbn [forallb] in Hc. apply andb_prop in Hc. destruct Hc as [Hc Hrest].
    assert (HF : Forall (role_settled env) (handle e env s)).
    { unfold handle. apply drive_Forall.
      - intros R f s'. apply settle_role_settled.
      - now apply start_role_settled. }
    rewrite Forall_forall in HF.
    apply Forall_app. split.
    + apply Forall_forall. intros x Hx.
      apply in_map_iff in Hx. destruct Hx as (sp & <- & Hsp).
      now apply HF.
    + apply IH; [|assumption].
      destruct (in_map_iff fst (handle e env s) (after e env s)) as [Hin _].
      destruct (Hin (after_In e env s)) as (sp & Heq & Hsp).
      rewrite <- Heq. now apply HF.
Qed.

(** C1 (as amended).  Whatever the identity provider and the user do, as
    long as each event is handled to completion before the next one, no
    published session state has a role without a user.  If moreover every
    role lookup concludes (it yields a role, or it fails and the provider's
    sign-out then succeeds), no published state with [loading = false] and a
    user lacks a role. *)
Theorem session_invariant (evs : list (Event * Outcomes)) :
  Forall role_has_user (session evs initial) /\
  (forallb concludes evs = true -> Forall ready_has_role (session evs initial)).
Proof.
  split.
  - apply session_role_has_user. unfold role_has_user. cbn. auto.
  - apply session_ready_has_role. unfold ready_has_role. cbn. discriminate.
Qed.

Lemma session_invariant_witness :
  forallb concludes [(authStateChanged (Some alice), lookup_gives developer);
                     (click_logOut, signOut_fails);
                     (authStateChanged (Some alice), lookup_fails)] = true /\
  Forall ready_has_role
    (session [(authStateChanged (Some alice), lookup_gives developer);
              (click_logOut, signOut_fails);
              (authStateChanged (Some alice), lookup_fails)] initial).
Proof.
  split; [reflexivity|].
  apply (proj2 (session_invariant _)). reflexivity.
Defined.

(** C1 (as stated) fails: alice logs in, the role lookup fails and so does
    the provider's sign-out; the pages are then rendered with alice as the
    user and no role, and [HomePage] shows "Loading user role...". *)
Lemma session_ready_without_role :
  let s := after (authStateChanged (Some alice)) lookup_and_signOut_fail initial in
  In s (session [(authStateChanged (Some alice), lookup_and_signOut_fail)] initial) /\
  loading s = false /\ user s = Some alice /\ role s = None /\
  renders_children s = true /\ HomePage s = Loading_user_role /\
  ~ ready_has_role s.
Proof.
  cbn. repeat split; auto 10.
  unfold ready_has_role. cbn. intros H. apply H; [reflexivity | discriminate | reflexivity].
Qed.

(** C2 (as amended).  Whatever the session was before: when the role lookup
    issued after a logged-in event fails and the provider's sign-out then
    succeeds, the callback returns with [user], [idToken] and [role] all
    [null] and [loading = false]; the lookup was issued once and nothing was
    retried. *)
Theorem role_lookup_failure_logs_out
    (s : AuthState) (u : FirebaseUser) (env : Outcomes) (token e : string) :
  getIdToken_outcome env = Resolved token ->
  get_users_me_outcome env = Rejected e ->
  resolved (signOut_outcome env) = true ->
  after (authStateChanged (Some u)) env s = logged_out /\
  redirects_to_login (after (authStateChanged (Some u)) env s) = true /\
  snd (outcome (handle (authStateChanged (Some u)) env s) s) = Finished /\
  calls (handle (authStateChanged (Some u)) env s)
    = [call_getIdToken u; call_apiClient_get "/users/me"; call_signOut].
Proof.
  intros Ht Hl Ho.
  unfold after, handle. cbn. rewrite Ht. cbn. rewrite Hl. cbn.
  destruct (signOut_outcome env); [|discriminate Ho].
  cbn. repeat split.
Qed.

Lemma role_lookup_failure_logs_out_witness :
  after (authStateChanged (Some alice)) lookup_fails alice_as_admin = logged_out.
Proof.
  apply (role_lookup_failure_logs_out alice_as_admin alice lookup_fails
           "jwt" "API request failed");
    reflexivity.
Defined.

(** C2 (as stated) fails: when the provider's sign-out fails too, alice
    stays set as the user, with her token, and the pages are rendered. *)
Lemma role_lookup_failure_keeps_user :
  get_users_me_outcome lookup_and_signOut_fail = Rejected "API request failed" /\
  after (authStateChanged (Some alice)) lookup_and_signOut_fail initial
    = {| user := Some alice; idToken := Some "jwt"; role := None; loading := false |} /\
  after (authStateChanged (Some alice)) lookup_and_signOut_fail initial <> logged_out /\
  redirects_to_login
    (after (authStateChanged (Some alice)) lookup_and_signOut_fail initial) = false.
Proof. cbn. repeat split. discriminate. Qed.

(** C7 (as amended).  [logOut] clears [user], [idToken] and [role] when the
    provider's [signOut] resolves, and leaves the session as it is when the
    call is rejected; [loading] is not touched.  The logged-out branch of
    the subscription clears all three and sets [loading] to [false], on its
    own and whatever the provider's calls do. *)
Theorem logOut_clears_on_success (s : AuthState) (env : Outcomes) :
  after click_logOut env s
    = (if resolved (signOut_outcome env)
       then {| user := None; idToken := None; role := None; loading := loading s |}
       else s) /\
  calls (handle click_logOut env s) = [call_signOut] /\
  after (authStateChanged None) env s = logged_out /\
  calls (handle (authStateChanged None) env s) = [].
Proof.
  unfold after, handle. cbn.
  destruct (signOut_outcome env); cbn; repeat split.
Qed.

(** C7 (as stated) fails: with alice logged in as admin, a [logOut] whose
    provider call is rejected leaves her logged in. *)
Lemma logOut_failure_keeps_session :
  resolved (signOut_outcome signOut_fails) = false /\
  after click_logOut signOut_fails alice_as_admin = alice_as_admin /\
  ~ cleared (after click_logOut signOut_fails alice_as_admin) /\
  HomePage (after click_logOut signOut_fails alice_as_admin) = show_AdminDashboard.
Proof.
  cbn. repeat split. unfold cleared. cbn. intros [H _]. discriminate H.
Qed.

(** The invariant leans on events being handled one after the other.  The
    provider does not wait for the callback: if it reports a logout while the
    role lookup of a login is still in flight, the late reply sets a role on a
    session that has no user any more. *)
Remark overlapping_callbacks_set_role_without_user :
  let s1 := fst (callback (Some alice) initial) in
  let s2 := fst (settle (callback_getIdToken alice) (Resolved "jwt") s1) in
  let s3 := fst (callback None s2) in
  let s4 := fst (settle (callback_get_users_me alice "jwt")
                   (Resolved {| userInfo_role := Some admin |}) s3) in
  user s4 = None /\ role s4 = Some admin /\ loading s4 = false.
Proof. cbn. repeat split. Qed.
End SessionFacts.

(** ** The API client *)
Section ApiClientFacts.
Import ApiClient.

Lemma filter_name_none (n : string) (hs : list (string * string)) :
  existsb (fun h => fst h =? n) hs = false ->
  filter (fun h => fst h =? n) hs = [].
Proof.
  induction hs as [|h hs IH]; cbn; [reflexivity|].
  destruct (fst h =? n); cbn; [discriminate | exact IH].
Qed.

Lemma filter_name_removed (m n : string) (hs : list (string * string)) :
  filter (fun h => fst h =? m) (filter (fun h => negb (fst h =? n)) hs)
  = if n =? m then [] else filter (fun h => fst h =? m) hs.
Proof.
  induction hs as [|h hs IH]; cbn; [now destruct (n =? m)|].
  destruct (String.eqb_spec (fst h) n) as [E|E]; cbn.
  - rewrite IH. destruct (String.eqb_spec n m) as [E'|E']; [reflexivity|].
    rewrite E. apply String.eqb_neq in E'. now rewrite E'.
  - rewrite IH. destruct (String.eqb_spec n m) as [E'|E'].
    + subst m. apply String.eqb_neq in E. now rewrite E.
    + reflexivity.
Qed.

Lemma set_first_same (n value : string) (hs : list (string * string)) :
  existsb (fun h => fst h =? n) hs = true ->
  filter (fun h => fst h =? n) (set_first n value hs) = [(n, value)].
Proof.
  induction hs as [|h hs IH]; cbn; [discriminate|].
  destruct (fst h =? n) eqn:E; cbn.
  - intros _. rewrite String.eqb_refl. f_equal.
    rewrite filter_name_removed. now rewrite String.eqb_refl.
  - intros H. rewrite E. now apply IH.
Qed.

Lemma set_first_other (m n value : string) (hs : list (string * string)) :
  (n =? m) = false ->
  filter (fun h => fst h =? m) (set_first n value hs) = filter (fun h => fst h =? m) hs.
Proof.
  intros Hne. induction hs as [|h hs IH]; cbn; [reflexivity|].
  destruct (String.eqb_spec (fst h) n) as [E|E]; cbn.
  - rewrite Hne, filter_name_removed, Hne. rewrite E, Hne. reflexivity.
  - now rewrite IH.
Qed.

(** After [set] there is one header of that name, with the value set. *)
Lemma Headers_set_same (name value : string) (hs : list (string * string)) :
  filter (fun h => fst h =? lowercase name) (Headers_set name value hs)
  = [(lowercase name, value)].
Proof.
  unfold Headers_set.
  destruct (existsb _ hs) eqn:E.
  - now apply set_first_same.
  - rewrite filter_app, (filter_name_none _ _ E). cbn. now rewrite String.eqb_refl.
Qed.

(** [set] leaves the headers of other names alone. *)
Lemma Headers_set_other (name other value : string) (hs : list (string * string)) :
  (lowercase other =? lowercase name) = false ->
  filter (fun h => fst h =? lowercase name) (Headers_set other value hs)
  = filter (fun h => fst h =? lowercase name) hs.
Proof.
  intros Hne. unfold Headers_set.
  destruct (existsb _ hs).
  - now apply set_first_other.
  - rewrite filter_app. cbn. rewrite Hne. apply app_nil_r.
Qed.

Lemma Headers_get_set (name value : string) (hs : list (string * string)) :
  Headers_get name (Headers_set name value hs) = Some value.
Proof. unfold Headers_get. now rewrite Headers_set_same. Qed.

Lemma Headers_get_set_other (name other value : string) (hs : list (string * string)) :
  (lowercase other =? lowercase name) = false ->
  Headers_get name (Headers_set other value hs) = Headers_get name hs.
Proof. intros Hne. unfold Headers_get. now rewrite Headers_set_other. Qed.

(** C9 (as amended).  The credential of a request does not depend on the
    session kept by [AuthProvider]: [fetchFromApi] fails with "No
    authenticated user found." when the provider has no current user and
    otherwise asks the provider for a token, for every request; when that
    call resolves the request is sent with the token as its bearer
    credential, and when it is rejected so is the request, unsent. *)
Theorem credential_follows_provider
    (J : Type) (w : World J) (endpoint : string) (options : RequestInit) :
  match auth_currentUser w with
  | None =>
      fetchFromApi_token w = Rejected "No authenticated user found." /\
      fetchFromApi w endpoint options
        = {| sent := None; result := Rejected "No authenticated user found." |}
  | Some user =>
      fetchFromApi_token w = getIdToken w user /\
      match getIdToken w user with
      | Resolved token =>
          exists requestOptions,
            sent (fetchFromApi w endpoint options)
              = Some (API_BASE_URL w ++ endpoint, requestOptions) /\
            Headers_get "Authorization" (headers requestOptions)
              = Some ("Bearer " ++ token)
      | Rejected e =>
          fetchFromApi w endpoint options = {| sent := None; result := Rejected e |}
      end
  end.
Proof.
  unfold fetchFromApi, fetchFromApi_token.
  destruct (auth_currentUser w) as [user|]; [|split; reflexivity].
  split; [reflexivity|].
  destruct (getIdToken w user) as [token|e]; [|reflexivity].
  eexists. split; [reflexivity|]. cbn [headers].
  rewrite Headers_get_set_other by reflexivity.
  apply Headers_get_set.
Qed.

(** C9 (as stated) fails: the role lookup itself is sent with a credential
    while the session is still loading, that is before it is ready. *)
Lemma credential_before_ready :
  exists s requestOptions,
    nth_error (AuthContext.handle (AuthContext.authStateChanged (Some SessionSpec.alice))
                 (SessionSpec.lookup_gives AuthContext.admin) AuthContext.initial) 1
      = Some (s, Pending (AuthContext.callback_get_users_me SessionSpec.alice "jwt")) /\
    AuthContext.loading s = true /\
    AuthContext.renders_children s = false /\
    AuthContext.role s = None /\
    AuthContext.HomePage s = AuthContext.Loading_application /\
    fetchFromApi_token SessionSpec.alice_signed_in = Resolved "jwt" /\
    sent (get SessionSpec.alice_signed_in "/users/me" no_options)
      = Some ("http://localhost:8000/users/me", requestOptions) /\
    Headers_get "Authorization" (headers requestOptions) = Some "Bearer jwt".
Proof.
  eexists. eexists. cbn. repeat split.
Qed.
End ApiClientFacts.

(** ** The task board *)
Section BoardFacts.
Import DeveloperDashboard BoardSpec.

Lemma lookup_keyed (l : list Task) (t : Task) :
  keyed l -> In t l -> lookup (taskId t) l = Some t.
Proof.
  unfold keyed, lookup.
  induction l as [|x l IH]; cbn; intros Hk Hin; [contradiction|].
  inversion Hk as [|? ? Hx Hl]; subst.
  destruct Hin as [->|Hin].
  - now rewrite String.eqb_refl.
  - destruct (taskId x =? taskId t) eqn:E.
    + apply String.eqb_eq in E. exfalso. apply Hx. rewrite E. now apply in_map.
    + now apply IH.
Qed.

Lemma lookup_absent (l : list Task) (id : string) :
  ~ In id (map taskId l) -> lookup id l = None.
Proof.
  unfold lookup.
  induction l as [|x l IH]; cbn; intros Hn; [reflexivity|].
  destruct (taskId x =? id) eqn:E.
  - apply String.eqb_eq in E. exfalso. apply Hn. now left.
  - apply IH. intros H. apply Hn. now right.
Qed.

Lemma lookup_retarget (l : list Task) (id newStatus : string) (t : Task) :
  lookup id l = Some t ->
  lookup id (retarget id newStatus l) = Some (with_status newStatus t).
Proof.
  unfold lookup, retarget.
  induction l as [|x l IH]; cbn; intros H; [discriminate|].
  destruct (taskId x =? id) eqn:E; cbn.
  - rewrite E. now inversion H.
  - rewrite E. now apply IH.
Qed.

Lemma retarget_others (l : list Task) (id newStatus : string) (x : Task) :
  In x l -> taskId x <> id -> In x (retarget id newStatus l).
Proof.
  intros Hin Hne. unfold retarget. apply in_map_iff. exists x. split; [|assumption].
  apply String.eqb_neq in Hne. now rewrite Hne.
Qed.

Lemma retarget_ids (l : list Task) (id newStatus : string) :
  map taskId (retarget id newStatus l) = map taskId l.
Proof.
  unfold retarget. rewrite map_map. apply map_ext. intros t.
  now destruct (taskId t =? id).
Qed.

(** What a drop on a column does when the card's task is in the cache with
    another status. *)
Lemma handleDragEnd_moves (b : Board) (t : Task) (newStatus : string) :
  lookup (taskId t) (tasks b) = Some t -> status t <> newStatus ->
  handleDragEnd (drop (taskId t) (Some newStatus)) b
    = (setTasks (retarget (taskId t) newStatus) (setActiveTask None b),
       Pending (handleDragEnd_put (taskId t) t newStatus)).
Proof.
  intros Hl Hs. unfold handleDragEnd, lookup in *. cbn.
  rewrite Hl. apply String.eqb_neq in Hs. now rewrite Hs.
Qed.

(** Every handler of the board returns: two resumptions are enough. *)
Lemma board_handle_completes (e : Event) (env : Outcomes) (b : Board) :
  snd (outcome (handle e env b) b) = Finished.
Proof.
  destruct env as [o1 o2].
  destruct e as [| |ev|ev|id ttl]; cbn; try (destruct o1; reflexivity).
  unfold handleDragEnd.
  destruct (over_id ev) as [newStatus|]; [|reflexivity].
  destruct (find _ _) as [cur|]; [|reflexivity].
  destruct (negb _); [|reflexivity].
  cbn. destruct o2; cbn; [reflexivity|].
  destruct o1; reflexivity.
Qed.

(** C3.  Dropping the card of a cached task [t] on the column of another
    status sets the cached status of [t] to that status at once: the state
    published when [handleDragEnd] hands control back, suspended on the
    status update it has just issued, already has the new status for the
    task, whatever the network answers later; the task is otherwise as it
    was, and the other tasks are as before. *)
Theorem optimistic_update_is_immediate (b : Board) (t : Task) (newStatus : string) :
  keyed (tasks b) -> In t (tasks b) -> status t <> newStatus ->
  exists b',
    handleDragEnd (drop (taskId t) (Some newStatus)) b
      = (b', Pending (handleDragEnd_put (taskId t) t newStatus)) /\
    tasks b' = retarget (taskId t) newStatus (tasks b) /\
    lookup (taskId t) (tasks b') = Some (with_status newStatus t) /\
    (exists t',
        lookup (taskId t) (tasks b') = Some t' /\
        status t' = newStatus /\
        taskId t' = taskId t /\ projectId t' = projectId t /\ title t' = title t /\
        description t' = description t /\ priority t' = priority t) /\
    (forall x, In x (tasks b') -> taskId x = taskId t -> status x = newStatus) /\
    (forall x, In x (tasks b) -> taskId x <> taskId t -> In x (tasks b')) /\
    (forall env : Outcomes,
        nth_error (handle (dragEnd (drop (taskId t) (Some newStatus))) env b) 0
          = Some (b', Pending (handleDragEnd_put (taskId t) t newStatus))).
Proof.
  intros Hk Hin Hs.
  pose proof (lookup_keyed (tasks b) t Hk Hin) as Hl.
  pose proof (handleDragEnd_moves b t newStatus Hl Hs) as Hm.
  eexists. split; [exact Hm|]. cbn [tasks setTasks setActiveTask].
  split; [reflexivity|].
  split; [now apply lookup_retarget|].
  split.
  { exists (with_status newStatus t). split; [now apply lookup_retarget|].
    cbn. repeat split. }
  split.
  { intros x Hx Hid. unfold retarget in Hx. apply in_map_iff in Hx.
    destruct Hx as (y & Hy & _).
    destruct (taskId y =? taskId t) eqn:E; subst x; [reflexivity|].
    apply String.eqb_neq in E. contradiction. }
  split; [intros x Hx Hne; now apply retarget_others|].
  intros env. unfold handle. rewrite drive_head. cbn [start]. now rewrite Hm.
Qed.

Lemma optimistic_update_is_immediate_witness :
  exists b',
    handleDragEnd (drop "t1" (Some "In Progress")) (board_of [t1; t2])
      = (b', Pending (handleDragEnd_put "t1" t1 "In Progress")) /\
    tasks b'
      = [{| taskId := "t1"; projectId := "p1"; title := "Write the report";
            description := "Quarterly numbers"; status := "In Progress";
            priority := "High" |}; t2] /\
    option_map status (lookup "t1" (tasks b')) = Some "In Progress".
Proof.
  destruct (optimistic_update_is_immediate (board_of [t1; t2]) t1 "In Progress")
    as (b' & H1 & H2 & _ & (t' & H4 & H5 & _) & _).
  - repeat constructor; cbn; intuition discriminate.
  - now left.
  - discriminate.
  - exists b'. split; [exact H1|]. split; [exact H2|].
    change (taskId t1) with "t1" in H4. rewrite H4. cbn. now rewrite H5.
Defined.

(** C4.  When the status update issued for a move is rejected the handler
    calls [fetchTasks], which asks the backend for the whole task list; once
    that arrives the cache is exactly that list. *)
Theorem failed_update_resyncs
    (b : Board) (t : Task) (newStatus e : string) (backend : list Task) :
  keyed (tasks b) -> In t (tasks b) -> status t <> newStatus ->
  calls (handle (dragEnd (drop (taskId t) (Some newStatus)))
           {| get_tasks_my_outcome := Resolved backend;
              put_status_outcome := Rejected e |} b)
    = [call_apiClient_put ("/tasks/" ++ taskId t ++ "/status") [("status", newStatus)];
       call_apiClient_get "/tasks/my"] /\
  tasks (after (dragEnd (drop (taskId t) (Some newStatus)))
           {| get_tasks_my_outcome := Resolved backend;
              put_status_outcome := Rejected e |} b) = backend /\
  snd (outcome (handle (dragEnd (drop (taskId t) (Some newStatus)))
                  {| get_tasks_my_outcome := Resolved backend;
                     put_status_outcome := Rejected e |} b) b) = Finished.
Proof.
  intros Hk Hin Hs.
  pose proof (handleDragEnd_moves b t newStatus (lookup_keyed (tasks b) t Hk Hin) Hs) as Hm.
  unfold after, handle. cbn [start]. rewrite Hm. cbn. repeat split.
Qed.

(** The refetch wins over both the old and the attempted status. *)
Lemma failed_update_resyncs_witness :
  option_map status
    (lookup "t1" (tasks (after (dragEnd (drop "t1" (Some "In Progress")))
                           update_fails_then_In_Review (board_of [t1]))))
    = Some "In Review".
Proof.
  destruct (failed_update_resyncs (board_of [t1]) t1 "In Progress"
              "API request failed" [with_status "In Review" t1]) as (_ & H & _).
  - repeat constructor; cbn; intuition.
  - now left.
  - discriminate.
  - unfold update_fails_then_In_Review. cbn [taskId t1 drop] in *. rewrite H. reflexivity.
Defined.

(** C5 (as amended).  The board keeps no record of a transition.  A move
    that passes the checks of [handleDragEnd] changes the status in the cache
    (and resets the drag overlay) and nothing else of the board, and leaves
    the handler suspended on the status update it has issued; how the handler
    resumes does not depend on the status the task had.  When the update
    succeeds the handler returns and changes nothing, whatever the board is
    by then; when it fails the handler goes on with [fetchTasks]; on its own
    it always returns.  Updates in flight are not tracked by task: a second
    drop of the same card issues a second update, which is still in flight
    when the first has settled. *)
Theorem transition_keeps_no_record
    (b : Board) (t : Task) (newStatus otherStatus : string) :
  keyed (tasks b) -> In t (tasks b) ->
  status t <> newStatus -> otherStatus <> newStatus ->
  fst (handleDragEnd (drop (taskId t) (Some newStatus)) b)
    = {| tasks := retarget (taskId t) newStatus (tasks b); activeTask := None;
         loading := loading b; error := error b;
         selectedTaskId := selectedTaskId b;
         selectedTaskTitle := selectedTaskTitle b |} /\
  calls [handleDragEnd (drop (taskId t) (Some newStatus)) b]
    = [call_apiClient_put ("/tasks/" ++ taskId t ++ "/status") [("status", newStatus)]] /\
  (forall (cur cur' : Task) (o : Settled unit) (b' : Board),
      settle (handleDragEnd_put (taskId t) cur newStatus) o b'
      = settle (handleDragEnd_put (taskId t) cur' newStatus) o b') /\
  (forall (cur : Task) (b' : Board),
      settle (handleDragEnd_put (taskId t) cur newStatus) (Resolved tt) b' = (b', Finished)) /\
  (forall (cur : Task) (e : string) (b' : Board),
      settle (handleDragEnd_put (taskId t) cur newStatus) (Rejected e) b' = fetchTasks b') /\
  (forall o : Settled (list Task),
      after (dragEnd (drop (taskId t) (Some newStatus)))
        {| get_tasks_my_outcome := o; put_status_outcome := Resolved tt |} b
      = fst (handleDragEnd (drop (taskId t) (Some newStatus)) b)) /\
  (forall env : Outcomes,
      snd (outcome (handle (dragEnd (drop (taskId t) (Some newStatus))) env b) b)
      = Finished) /\
  (forall o : Settled (list Task),
      snd (resume settle answer 0
             {| get_tasks_my_outcome := o; put_status_outcome := Resolved tt |}
             (two_drops (taskId t) newStatus otherStatus b))
      = [Pending (handleDragEnd_put (taskId t) (with_status newStatus t) otherStatus)]).
Proof.
  intros Hk Hin Hs Ho.
  pose proof (lookup_keyed (tasks b) t Hk Hin) as Hl.
  pose proof (handleDragEnd_moves b t newStatus Hl Hs) as Hm.
  rewrite Hm. cbn [fst snd].
  split; [reflexivity|]. split; [reflexivity|].
  split; [intros cur cur' [[]|e] b'; reflexivity|].
  split; [reflexivity|]. split; [reflexivity|].
  split; [|split].
  - intros o. unfold after, handle. cbn [start]. rewrite Hm. reflexivity.
  - intros env. apply board_handle_completes.
  - intros o. unfold two_drops, fire. cbn [fst snd]. rewrite Hm. cbn [fst snd app still_pending].
    assert (Hl1 : lookup (taskId t)
                    (tasks (setTasks (retarget (taskId t) newStatus) (setActiveTask None b)))
                  = Some (with_status newStatus t)).
    { cbn [tasks setTasks setActiveTask]. now apply lookup_retarget. }
    pose proof (handleDragEnd_moves _ (with_status newStatus t) otherStatus Hl1) as Hm2.
    cbn [taskId status with_status] in Hm2.
    rewrite Hm2 by (intros H; apply Ho; now symmetry).
    reflexivity.
Qed.

(** The double drop of the specification's known gap: [t1] goes to "In
    Progress" and, before that update has settled, on to "Done". *)
Lemma transition_keeps_no_record_witness :
  snd (resume settle answer 0 update_succeeds
         (two_drops "t1" "In Progress" "Done" (board_of [t1])))
    = [Pending (handleDragEnd_put "t1" (with_status "In Progress" t1) "Done")] /\
  tasks (after (dragEnd (drop "t1" (Some "In Progress"))) update_succeeds (board_of [t1]))
    = [{| taskId := "t1"; projectId := "p1"; title := "Write the report";
          description := "Quarterly numbers"; status := "In Progress";
          priority := "High" |}].
Proof.
  destruct (transition_keeps_no_record (board_of [t1]) t1 "In Progress" "Done")
    as (H1 & _ & _ & _ & _ & H6 & _ & H8).
  - repeat constructor; cbn; intuition.
  - now left.
  - discriminate.
  - discriminate.
  - split; [exact (H8 (Rejected "unused"))|].
    unfold update_succeeds. cbn [taskId t1] in H6. rewrite H6.
    cbn [taskId t1] in H1. rewrite H1. reflexivity.
Defined.

(** C5 (as stated) fails.  After [t1] was dropped on "In Progress" and then
    on "Done", and the first update has succeeded, an update for [t1] is
    still in flight.  And nothing on the board tells the status a card came
    from: moved to "Done" from "To-Do" or from "In Review", the board is the
    same, and so is all that the suspended handler will do. *)
Lemma second_update_outlives_first :
  map transition_in_flight
    (snd (resume settle answer 0 update_succeeds
            (two_drops "t1" "In Progress" "Done" (board_of [t1]))))
    = [Some ("t1", "In Progress", "Done")] /\
  fst (handleDragEnd (drop "t1" (Some "Done")) (board_of [t1]))
    = fst (handleDragEnd (drop "t1" (Some "Done")) (board_of [with_status "In Review" t1])) /\
  status t1 <> status (with_status "In Review" t1) /\
  (forall (o : Settled unit) (b' : Board),
      settle (handleDragEnd_put "t1" t1 "Done") o b'
      = settle (handleDragEnd_put "t1" (with_status "In Review" t1) "Done") o b').
Proof.
  split; [reflexivity|]. split; [reflexivity|]. split; [discriminate|].
  intros [[]|e] b'; reflexivity.
Qed.

(** C6.  Dropping the card of a cached task on the column it is already in
    does nothing to the tasks: the handler returns at once, no request is
    issued, nothing is left in flight. *)
Theorem same_status_is_noop (b : Board) (t : Task) (env : Outcomes) :
  keyed (tasks b) -> In t (tasks b) ->
  handle (dragEnd (drop (taskId t) (Some (status t)))) env b
    = [(setActiveTask None b, Finished)] /\
  tasks (after (dragEnd (drop (taskId t) (Some (status t)))) env b) = tasks b /\
  calls (handle (dragEnd (drop (taskId t) (Some (status t)))) env b) = [] /\
  transition_in_flight (snd (handleDragEnd (drop (taskId t) (Some (status t))) b)) = None.
Proof.
  intros Hk Hin.
  pose proof (lookup_keyed (tasks b) t Hk Hin) as Hl.
  assert (Hh : handleDragEnd (drop (taskId t) (Some (status t))) b
               = (setActiveTask None b, Finished)).
  { unfold handleDragEnd, lookup in *. cbn. rewrite Hl. now rewrite String.eqb_refl. }
  unfold after, handle. cbn [start]. rewrite Hh. cbn. repeat split.
Qed.

Lemma same_status_is_noop_witness :
  handle (dragEnd (drop "t2" (Some "In Review"))) update_fails_then_In_Review
    (board_of [t1; t2])
    = [(board_of [t1; t2], Finished)].
Proof.
  destruct (same_status_is_noop (board_of [t1; t2]) t2 update_fails_then_In_Review)
    as (H & _).
  - repeat constructor; cbn; intuition discriminate.
  - right. now left.
  - exact H.
Defined.

(** C8.  A load that fails leaves the task list as it was, at every state
    it publishes; all it does to the board is to set the error message and
    to drop the loading flag. *)
Theorem failed_load_keeps_tasks (b : Board) (e : string) (o : Settled unit) :
  Forall (fun sp => tasks (fst sp) = tasks b)
    (handle click_Refresh_Board
       {| get_tasks_my_outcome := Rejected e; put_status_outcome := o |} b) /\
  outcome (handle click_Refresh_Board
             {| get_tasks_my_outcome := Rejected e; put_status_outcome := o |} b) b
    = ({| tasks := tasks b; activeTask := activeTask b; loading := false;
          error := Some "Failed to fetch tasks.";
          selectedTaskId := selectedTaskId b;
          selectedTaskTitle := selectedTaskTitle b |}, Finished) /\
  (forall b' : Board,
      tasks (fst (settle fetchTasks_get (Rejected e) b')) = tasks b').
Proof.
  cbn. repeat split. repeat constructor.
Qed.

(** C10.  A drag that ends over no column, or whose card is of no cached
    task, does nothing to the tasks: the handler returns at once, having
    issued no request. *)
Theorem stray_drop_is_noop (b : Board) (event : DragEndEvent) (env : Outcomes) :
  over_id event = None \/ ~ In (active_id event) (map taskId (tasks b)) ->
  handle (dragEnd event) env b = [(setActiveTask None b, Finished)] /\
  tasks (after (dragEnd event) env b) = tasks b /\
  calls (handle (dragEnd event) env b) = [].
Proof.
  intros H.
  assert (Hh : handleDragEnd event b = (setActiveTask None b, Finished)).
  { unfold handleDragEnd. destruct H as [H|H].
    - now rewrite H.
    - destruct (over_id event); [|reflexivity].
      pose proof (lookup_absent _ _ H) as Hl. unfold lookup in Hl. cbn.
      now rewrite Hl. }
  unfold after, handle. cbn [start]. rewrite Hh. cbn. repeat split.
Qed.

Lemma stray_drop_is_noop_witness :
  handle (dragEnd (drop "t9" (Some "Done"))) update_succeeds (board_of [t1; t2])
    = [(board_of [t1; t2], Finished)] /\
  handle (dragEnd (drop "t1" None)) update_succeeds (board_of [t1; t2])
    = [(board_of [t1; t2], Finished)].
Proof.
  split.
  - apply (stray_drop_is_noop (board_of [t1; t2]) (drop "t9" (Some "Done")) update_succeeds).
    right. cbn. intuition discriminate.
  - apply (stray_drop_is_noop (board_of [t1; t2]) (drop "t1" None) update_succeeds).
    left. reflexivity.
Defined.
End BoardFacts.


(** * Further properties *)

(** ** The API client, continued *)
Section ApiClientMore.
Import ApiClient.





(** The edges of the error path: a list of validation errors as [detail]
    gives "[object Object]", an empty list gives the empty message, and a
    [null] body the [TypeError]. *)
Example error_message_edges :
  error_message SessionSpec2.unprocessable_422 = "[object Object]" /\
  error_message SessionSpec2.empty_detail_500 = "" /\
  error_message SessionSpec2.null_body_500 = TypeError_reading_detail.
Proof. repeat split. Qed.

Lemma byte_lowercase_idem (c : Ascii.ascii) :
  byte_lowercase (byte_lowercase c) = byte_lowercase c.
Proof. destruct c as [[] [] [] [] [] [] [] []]; reflexivity. Qed.

Lemma lowercase_idem (name : string) : lowercase (lowercase name) = lowercase name.
Proof.
  induction name as [|c rest IH]; cbn; [reflexivity|].
  now rewrite byte_lowercase_idem, IH.
Qed.

Lemma Headers_new_lowercase (init : list (string * string)) :
  Forall (fun h => lowercase (fst h) = fst h) (Headers_new init).
Proof.
  unfold Headers_new. apply Forall_forall. intros h Hin.
  apply in_map_iff in Hin. destruct Hin as (x & <- & _). cbn. apply lowercase_idem.
Qed.

Lemma set_first_lowercase (n value : string) (hs : list (string * string)) :
  lowercase n = n ->
  Forall (fun h => lowercase (fst h) = fst h) hs ->
  Forall (fun h => lowercase (fst h) = fst h) (set_first n value hs).
Proof.
  intros Hn. induction 1 as [|h hs Hh Hhs IH]; cbn; [constructor|].
  destruct (fst h =? n).
  - constructor; [exact Hn|].
    apply Forall_forall. intros x Hx. apply filter_In in Hx.
    rewrite Forall_forall in Hhs. now apply Hhs.
  - now constructor.
Qed.

Lemma Headers_set_lowercase (name value : string) (hs : list (string * string)) :
  Forall (fun h => lowercase (fst h) = fst h) hs ->
  Forall (fun h => lowercase (fst h) = fst h) (Headers_set name value hs).
Proof.
  intros H. unfold Headers_set. destruct (existsb _ hs).
  - apply set_first_lowercase; [apply lowercase_idem | assumption].
  - apply Forall_app. split; [assumption|].
    constructor; [apply lowercase_idem | constructor].
Qed.

Lemma filter_lowercase (n : string) (hs : list (string * string)) :
  Forall (fun h => lowercase (fst h) = fst h) hs ->
  filter (fun h => lowercase (fst h) =? n) hs = filter (fun h => fst h =? n) hs.
Proof.
  intros H. apply filter_ext_in. intros h Hin.
  rewrite Forall_forall in H. now rewrite (H h Hin).
Qed.


End ApiClientMore.

(** ** The session, continued *)
Section SessionMore.
Import AuthContext SessionSpec SessionSpec2.

(** X4.  A login whose token request and role lookup both succeed ends, whatever
    the session was before, with the new user, their token, the role the
    backend returned and [loading = false]; two calls were issued, and
    [HomePage] shows the dashboard of that role. *)
Theorem login_success
    (s : AuthState) (u : FirebaseUser) (env : Outcomes) (token : string) (userInfo : UserInfo) :
  getIdToken_outcome env = Resolved token ->
  get_users_me_outcome env = Resolved userInfo ->
  after (authStateChanged (Some u)) env s
    = {| user := Some u; idToken := Some token; role := userInfo_role userInfo;
         loading := false |} /\
  calls (handle (authStateChanged (Some u)) env s)
    = [call_getIdToken u; call_apiClient_get "/users/me"] /\
  HomePage (after (authStateChanged (Some u)) env s)
    = renderDashboard (userInfo_role userInfo).
Proof.
  intros Ht Hl. unfold after, handle. cbn. rewrite Ht. cbn. rewrite Hl. cbn.
  repeat split.
Qed.

Lemma login_success_witness :
  after (authStateChanged (Some alice)) (lookup_gives developer) alice_as_admin
    = {| user := Some alice; idToken := Some "jwt"; role := Some developer;
         loading := false |} /\
  HomePage (after (authStateChanged (Some alice)) (lookup_gives developer) alice_as_admin)
    = show_DeveloperDashboard.
Proof.
  destruct (login_success alice_as_admin alice (lookup_gives developer) "jwt"
              {| userInfo_role := Some developer |}) as (H1 & _ & H3);
    [reflexivity | reflexivity |].
  split; [exact H1 | exact H3].
Defined.

(** X5.  When the provider fails to hand out a token the callback stops before
    its role lookup and before [setLoading(false)]: the new user is set, the
    token and the role are the ones of the session before, and the provider
    goes on rendering no children. *)
Theorem token_failure_leaves_loading
    (s : AuthState) (u : FirebaseUser) (env : Outcomes) (e : string) :
  getIdToken_outcome env = Rejected e ->
  after (authStateChanged (Some u)) env s
    = {| user := Some u; idToken := idToken s; role := role s; loading := true |} /\
  calls (handle (authStateChanged (Some u)) env s) = [call_getIdToken u] /\
  renders_children (after (authStateChanged (Some u)) env s) = false /\
  snd (outcome (handle (authStateChanged (Some u)) env s) s) = Finished.
Proof.
  intros Ht. unfold after, handle. cbn. rewrite Ht. cbn. repeat split.
Qed.

Lemma token_failure_leaves_loading_witness :
  after (authStateChanged (Some {| uid := "bob" |}))
    {| signInWithPopup_outcome := Resolved tt; signOut_outcome := Resolved tt;
       getIdToken_outcome := Rejected "auth/network-request-failed";
       get_users_me_outcome := Rejected "unused" |} alice_as_admin
    = {| user := Some {| uid := "bob" |}; idToken := Some "jwt"; role := Some admin;
         loading := true |}.
Proof.
  apply (token_failure_leaves_loading alice_as_admin {| uid := "bob" |} _
           "auth/network-request-failed").
  reflexivity.
Defined.

Lemma start_token_kept (e : Event) (s : AuthState) :
  token_has_user s -> token_kept (start e s).
Proof.
  unfold token_kept, token_has_user.
  destruct e as [[u|]| |]; cbn; intros H; split; intros; try discriminate; auto.
Qed.

Lemma settle_token_kept (env : Outcomes) (R : Type) (f : Frame R) (s : AuthState) :
  token_kept (s, Pending f) -> token_kept (settle f (answer env f) s).
Proof.
  unfold token_kept, token_has_user. intros [Hr Hc].
  destruct f; cbn in *.
  - split; [assumption | discriminate].
  - destruct (signOut_outcome env); cbn; split; auto; discriminate.
  - destruct (getIdToken_outcome env); cbn; split; auto; discriminate.
  - destruct (get_users_me_outcome env); cbn; split; auto; discriminate.
  - destruct (signOut_outcome env); cbn; split; auto; discriminate.
Qed.

Lemma session_token_has_user_from (evs : list (Event * Outcomes)) :
  forall s, token_has_user s -> Forall token_has_user (session evs s).
Proof.
  induction evs as [|[e env] rest IH]; intros s Hs; cbn [session].
  - constructor.
  - assert (HF : Forall token_kept (handle e env s)).
    { unfold handle. apply drive_Forall.
      - intros R f s'. apply settle_token_kept.
      - now apply start_token_kept. }
    rewrite Forall_forall in HF.
    apply Forall_app. split.
    + apply Forall_forall. intros x Hx.
      apply in_map_iff in Hx. destruct Hx as (sp & <- & Hsp).
      now apply HF.
    + apply IH.
      destruct (in_map_iff fst (handle e env s) (after e env s)) as [Hin _].
      destruct (Hin (after_In e env s)) as (sp & Heq & Hsp).
      rewrite <- Heq. now apply HF.
Qed.

(** X6.  Whatever the identity provider and the user do, as long as each event is
    handled to completion before the next one, no published session state
    holds a token without a user. *)
Theorem session_token_has_user (evs : list (Event * Outcomes)) :
  Forall token_has_user (session evs initial).
Proof.
  apply session_token_has_user_from. unfold token_has_user. cbn. auto.
Qed.

(** [googleSignIn] changes nothing of the session, whether the popup succeeds
    or fails: the session is set by the subscription, and a failure is
    caught. *)
Theorem googleSignIn_leaves_session (s : AuthState) (env : Outcomes) :
  handle click_googleSignIn env s
    = [(s, Pending googleSignIn_signInWithPopup); (s, Finished)] /\
  after click_googleSignIn env s = s /\
  calls (handle click_googleSignIn env s) = [call_signInWithPopup].
Proof. unfold after, handle. cbn. repeat split. Qed.

(** X7.  [HomePage] shows the admin dashboard only to a session that is not
    loading, has a user and has the role admin, and likewise the developer
    dashboard; while it sends the visitor to the login page it shows neither. *)
Theorem dashboard_requires_role (s : AuthState) :
  (HomePage s = show_AdminDashboard <->
   loading s = false /\ user s <> None /\ role s = Some admin) /\
  (HomePage s = show_DeveloperDashboard <->
   loading s = false /\ user s <> None /\ role s = Some developer) /\
  (redirects_to_login s = true <-> loading s = false /\ user s = None) /\
  (redirects_to_login s = true -> HomePage s = Loading_application).
Proof.
  unfold HomePage, redirects_to_login, no_user, renderDashboard.
  destruct s as [[u|] t [[|]|] [|]]; cbn;
    repeat split; intros; try discriminate; try congruence;
    repeat match goal with
           | H : _ /\ _ |- _ => destruct H
           end; try discriminate; try congruence.
Qed.
End SessionMore.

(** ** The task board, continued *)
From Stdlib Require Import Permutation.

Section BoardMore.
Import DeveloperDashboard BoardSpec DeveloperDashboardView.

Lemma handleDragEnd_stays (b : Board) (t : Task) (newStatus : string) :
  lookup (taskId t) (tasks b) = Some t -> status t = newStatus ->
  handleDragEnd (drop (taskId t) (Some newStatus)) b = (setActiveTask None b, Finished).
Proof.
  intros Hl Hs. unfold handleDragEnd, lookup in *. cbn.
  rewrite Hl, Hs. now rewrite String.eqb_refl.
Qed.

Lemma keyed_unique (l : list Task) (x t : Task) :
  keyed l -> In x l -> In t l -> taskId x = taskId t -> x = t.
Proof.
  intros Hk Hx Ht E.
  pose proof (lookup_keyed l x Hk Hx) as H1.
  pose proof (lookup_keyed l t Hk Ht) as H2.
  rewrite E in H1. congruence.
Qed.

Lemma with_status_back (t : Task) (newStatus : string) :
  with_status (status t) (with_status newStatus t) = t.
Proof. now destruct t. Qed.

Lemma retarget_back (l : list Task) (t : Task) (newStatus : string) :
  keyed l -> In t l ->
  retarget (taskId t) (status t) (retarget (taskId t) newStatus l) = l.
Proof.
  intros Hk Ht. unfold retarget. rewrite map_map.
  rewrite <- (map_id l) at 2. apply map_ext_in. intros x Hx.
  destruct (taskId x =? taskId t) eqn:E; cbn.
  - rewrite E. apply String.eqb_eq in E.
    rewrite (keyed_unique l x t Hk Hx Ht E). apply with_status_back.
  - now rewrite E.
Qed.

Lemma retarget_same_card (id newStatus : string) (l : list Task) :
  Forall2 (fun t t' => same_card t t' /\
                       (taskId t <> id -> t' = t) /\
                       (t' = t \/ status t' = newStatus))
    l (retarget id newStatus l).
Proof.
  unfold retarget, same_card.
  induction l as [|x l IH]; cbn; constructor; [|assumption].
  destruct (taskId x =? id) eqn:E; cbn.
  - apply String.eqb_eq in E. repeat split; auto. intros H. now contradiction H.
  - repeat split; auto.
Qed.

Lemma Forall2_diag (A : Type) (R : A -> A -> Prop) (l : list A) :
  (forall x, R x x) -> Forall2 R l l.
Proof. intros H. induction l; constructor; auto. Qed.

(** X8.  However a drag ends, the cache afterwards has the same cards in the same
    order: [handleDragEnd] adds, drops and reorders nothing, touches no field
    but the status, and touches only tasks with the id of the dragged card. *)
Theorem drag_changes_status_only (event : DragEndEvent) (b : Board) :
  Forall2 (fun t t' => same_card t t' /\
                       (taskId t <> active_id event -> t' = t) /\
                       (t' = t \/ Some (status t') = over_id event))
    (tasks b) (tasks (fst (handleDragEnd event b))) /\
  map taskId (tasks (fst (handleDragEnd event b))) = map taskId (tasks b).
Proof.
  assert (Hsame : forall l : list Task,
             Forall2 (fun t t' => same_card t t' /\
                                  (taskId t <> active_id event -> t' = t) /\
                                  (t' = t \/ Some (status t') = over_id event)) l l).
  { intros l. apply Forall2_diag. intros x. unfold same_card. repeat split; auto. }
  unfold handleDragEnd.
  destruct (over_id event) as [newStatus|]; [|cbn; split; [apply Hsame | reflexivity]].
  destruct (find _ _) as [cur|]; [|cbn; split; [apply Hsame | reflexivity]].
  destruct (negb _); cbn [fst tasks setTasks setActiveTask];
    [|split; [apply Hsame | reflexivity]].
  split; [|apply retarget_ids].
  eapply Forall2_impl; [|apply (retarget_same_card (active_id event) newStatus)].
  intros t t' (H1 & H2 & [H3|H3]); repeat split; auto; try apply H1.
  right. now rewrite H3.
Qed.

(** What the first of two drops leaves in the cache for the dragged card. *)
Lemma lookup_after_drop (b : Board) (t : Task) (newStatus : string) :
  keyed (tasks b) -> In t (tasks b) ->
  lookup (taskId t) (tasks (fst (handleDragEnd (drop (taskId t) (Some newStatus)) b)))
    = Some (with_status newStatus t).
Proof.
  intros Hk Hin. pose proof (lookup_keyed (tasks b) t Hk Hin) as Hl.
  destruct (String.eqb_spec (status t) newStatus) as [E|E].
  - rewrite (handleDragEnd_stays b t newStatus Hl E). cbn [fst tasks setActiveTask].
    rewrite Hl. f_equal. rewrite <- E. now destruct t.
  - rewrite (handleDragEnd_moves b t newStatus Hl E). cbn [fst tasks setTasks setActiveTask].
    now apply lookup_retarget.
Qed.

(** X9.  Dragging a card to another column and back restores the cache exactly. *)
Theorem drag_there_and_back (b : Board) (t : Task) (newStatus : string) :
  keyed (tasks b) -> In t (tasks b) ->
  tasks (fst (handleDragEnd (drop (taskId t) (Some (status t)))
                (fst (handleDragEnd (drop (taskId t) (Some newStatus)) b))))
    = tasks b.
Proof.
  intros Hk Hin. pose proof (lookup_keyed (tasks b) t Hk Hin) as Hl.
  pose proof (lookup_after_drop b t newStatus Hk Hin) as Hl1.
  destruct (String.eqb_spec (status t) newStatus) as [E|E].
  - rewrite (handleDragEnd_stays b t newStatus Hl E).
    cbn [fst]. change (tasks (setActiveTask None b)) with (tasks b) in *.
    now rewrite (handleDragEnd_stays (setActiveTask None b) t (status t) Hl eq_refl).
  - rewrite (handleDragEnd_moves b t newStatus Hl E) in *. cbn [fst] in *.
    pose proof (handleDragEnd_moves _ (with_status newStatus t) (status t) Hl1) as Hm.
    cbn [taskId status with_status] in Hm.
    rewrite Hm by (intros H; apply E; now symmetry).
    cbn. now apply retarget_back.
Qed.

Lemma drag_there_and_back_witness :
  tasks (fst (handleDragEnd (drop "t1" (Some "To-Do"))
                (fst (handleDragEnd (drop "t1" (Some "Done")) (board_of [t1; t2])))))
    = [t1; t2].
Proof.
  apply (drag_there_and_back (board_of [t1; t2]) t1 "Done").
  - repeat constructor; cbn; intuition discriminate.
  - now left.
Defined.

(** X10.  Dropping a card a second time on the column it has just been dropped on
    does nothing: no second request, no change of the cache. *)
Theorem second_drop_is_noop (b : Board) (t : Task) (newStatus : string) (env : Outcomes) :
  keyed (tasks b) -> In t (tasks b) ->
  handle (dragEnd (drop (taskId t) (Some newStatus))) env
    (fst (handleDragEnd (drop (taskId t) (Some newStatus)) b))
    = [(fst (handleDragEnd (drop (taskId t) (Some newStatus)) b), Finished)].
Proof.
  intros Hk Hin.
  pose proof (lookup_after_drop b t newStatus Hk Hin) as Hl1.
  pose proof (handleDragEnd_stays _ (with_status newStatus t) newStatus Hl1 eq_refl) as Hs.
  cbn [taskId with_status] in Hs.
  assert (Ha : setActiveTask None (fst (handleDragEnd (drop (taskId t) (Some newStatus)) b))
               = fst (handleDragEnd (drop (taskId t) (Some newStatus)) b)).
  { pose proof (lookup_keyed (tasks b) t Hk Hin) as Hl.
    destruct (String.eqb_spec (status t) newStatus) as [E|E].
    - now rewrite (handleDragEnd_stays b t newStatus Hl E).
    - now rewrite (handleDragEnd_moves b t newStatus Hl E). }
  rewrite Ha in Hs.
  unfold handle. cbn [start]. rewrite Hs. reflexivity.
Qed.

Lemma second_drop_is_noop_witness :
  handle (dragEnd (drop "t1" (Some "Done"))) update_fails_then_In_Review
    (fst (handleDragEnd (drop "t1" (Some "Done")) (board_of [t1; t2])))
    = [(board_of [with_status "Done" t1; t2], Finished)].
Proof.
  apply (second_drop_is_noop (board_of [t1; t2]) t1 "Done" update_fails_then_In_Review).
  - repeat constructor; cbn; intuition discriminate.
  - now left.
Defined.

Lemma column_In (c : string) (l : list Task) (t : Task) :
  In t (column c l) <-> In t l /\ status t = c.
Proof.
  unfold column. rewrite filter_In. now rewrite String.eqb_eq.
Qed.

Lemma has_column_spec (t : Task) :
  has_column t = true <-> In (status t) TASK_STATUSES.
Proof.
  unfold has_column. rewrite existsb_exists. split.
  - intros (c & Hc & E). apply String.eqb_eq in E. now rewrite E.
  - intros H. exists (status t). split; [assumption | apply String.eqb_refl].
Qed.

Lemma columns_Permutation (l : list Task) :
  Permutation
    (column "To-Do" l ++ column "In Progress" l ++ column "In Review" l
       ++ column "Done" l ++ [])
    (filter has_column l).
Proof.
  induction l as [|t l IH]; [constructor|].
  unfold column, has_column in *. cbn [filter existsb TASK_STATUSES] in *.
  destruct (String.eqb_spec (status t) "To-Do") as [E1|E1].
  { rewrite E1. cbn. now apply perm_skip. }
  destruct (String.eqb_spec (status t) "In Progress") as [E2|E2].
  { rewrite E2. cbn. apply Permutation_sym, Permutation_cons_app.
    now apply Permutation_sym. }
  destruct (String.eqb_spec (status t) "In Review") as [E3|E3].
  { try rewrite E3. cbn. apply Permutation_sym.
    rewrite app_assoc. apply Permutation_cons_app. rewrite <- app_assoc.
    now apply Permutation_sym. }
  destruct (String.eqb_spec (status t) "Done") as [E4|E4].
  { cbn. apply Permutation_sym.
    rewrite app_assoc. rewrite (app_assoc _ _ (_ :: _)).
    apply Permutation_cons_app. rewrite <- !app_assoc.
    now apply Permutation_sym. }
  cbn. exact IH.
Qed.

(** X11.  The cards of the four columns together are the cached tasks whose status
    is one of the four statuses, each as often as it is cached; a task with
    any other status is cached but shown in no column. *)
Theorem board_shows_tasks_with_a_column (b : Board) :
  Permutation (cards b) (filter has_column (tasks b)) /\
  (forall t, In t (cards b) <-> In t (tasks b) /\ In (status t) TASK_STATUSES) /\
  List.length (cards b) <= List.length (tasks b).
Proof.
  assert (HP : Permutation (cards b) (filter has_column (tasks b))).
  { unfold cards, columns. cbn [map snd List.concat]. apply columns_Permutation. }
  split; [exact HP|]. split.
  - intros t. rewrite <- has_column_spec, <- filter_In. split; intros H.
    + eapply Permutation_in; [exact HP | exact H].
    + eapply Permutation_in; [apply Permutation_sym; exact HP | exact H].
  - rewrite (Permutation_length HP). apply filter_length_le.
Qed.

(** X12.  After a card was dropped on another column it is in that column, no
    column but that one has a card with its id, and the other cards are in
    the columns they were in. *)
Theorem dropped_card_changes_column (b : Board) (t : Task) (newStatus : string) :
  keyed (tasks b) -> In t (tasks b) -> status t <> newStatus ->
  In (with_status newStatus t)
    (column newStatus (tasks (fst (handleDragEnd (drop (taskId t) (Some newStatus)) b)))) /\
  (forall c x,
      In x (column c (tasks (fst (handleDragEnd (drop (taskId t) (Some newStatus)) b)))) ->
      taskId x = taskId t -> c = newStatus /\ x = with_status newStatus t) /\
  (forall c x,
      taskId x <> taskId t ->
      (In x (column c (tasks (fst (handleDragEnd (drop (taskId t) (Some newStatus)) b))))
       <-> In x (column c (tasks b)))).
Proof.
  intros Hk Hin Hs. pose proof (lookup_keyed (tasks b) t Hk Hin) as Hl.
  rewrite (handleDragEnd_moves b t newStatus Hl Hs).
  cbn [fst tasks setTasks setActiveTask].
  split; [|split].
  - apply column_In. split; [|reflexivity].
    unfold retarget. apply in_map_iff. exists t. split; [|assumption].
    now rewrite String.eqb_refl.
  - intros c x Hx Hid. apply column_In in Hx. destruct Hx as [Hx Hc].
    unfold retarget in Hx. apply in_map_iff in Hx. destruct Hx as (y & Hy & Hyin).
    destruct (taskId y =? taskId t) eqn:E.
    + apply String.eqb_eq in E. rewrite (keyed_unique (tasks b) y t Hk Hyin Hin E) in Hy.
      subst x. split; [now rewrite <- Hc | reflexivity].
    + apply String.eqb_neq in E. subst x. contradiction.
  - intros c x Hid. rewrite !column_In. split; intros [Hx Hc]; split; try assumption.
    + unfold retarget in Hx. apply in_map_iff in Hx. destruct Hx as (y & Hy & Hyin).
      destruct (taskId y =? taskId t) eqn:E.
      * apply String.eqb_eq in E. subst x. cbn in Hid. contradiction.
      * now subst x.
    + now apply retarget_others.
Qed.

Lemma dropped_card_changes_column_witness :
  In (with_status "Done" t1)
    (column "Done" (tasks (fst (handleDragEnd (drop "t1" (Some "Done")) (board_of [t1; t2]))))).
Proof.
  destruct (dropped_card_changes_column (board_of [t1; t2]) t1 "Done") as (H & _).
  - repeat constructor; cbn; intuition discriminate.
  - now left.
  - discriminate.
  - exact H.
Defined.

Lemma retarget_length (id newStatus : string) (l : list Task) :
  List.length (retarget id newStatus l) = List.length l.
Proof. unfold retarget. apply length_map. Qed.

(** X13.  A board that has tasks is never replaced by the "Loading..." screen: not
    while a refresh is in flight, not when it fails, and not when it returns
    an empty list; the same holds for every other event. *)
Theorem board_with_tasks_stays_visible (e : Event) (env : Outcomes) (b : Board) :
  tasks b <> [] ->
  Forall (fun sp => shows_Loading (fst sp) = false) (handle e env b).
Proof.
  intros Hne.
  assert (Hgate : forall x : Board,
             tasks x <> [] \/ loading x = false -> shows_Loading x = false).
  { intros x [H|H]; unfold shows_Loading.
    - destruct (tasks x); [now contradiction H|]. cbn. apply andb_false_r.
    - now rewrite H. }
  eapply Forall_impl;
    [|apply (drive_Forall Board Frame (@settle) Outcomes (@answer)
               (fun sp => (tasks (fst sp) <> [] \/ loading (fst sp) = false) /\
                          (snd sp <> Finished -> tasks (fst sp) <> []))
               env)].
  - intros sp [H _]. now apply Hgate.
  - intros R f s [_ Hp]. specialize (Hp ltac:(discriminate)). cbn [fst] in Hp.
    destruct f; cbn.
    + destruct (get_tasks_my_outcome env); cbn; split; auto;
        try (intros H; now contradiction H).
    + destruct (put_status_outcome env); cbn; split; auto;
        try (intros H; now contradiction H).
  - destruct e as [| |ev|ev|id ttl]; cbn [start];
      try (cbn; split; auto; try (intros H; now contradiction H); fail).
    unfold handleDragEnd.
    destruct (over_id ev) as [newStatus|];
      [|cbn; split; auto; try (intros H; now contradiction H)].
    destruct (find _ _) as [cur|];
      [|cbn; split; auto; try (intros H; now contradiction H)].
    destruct (negb _);
      [|cbn; split; auto; try (intros H; now contradiction H)].
    cbn [fst snd tasks setTasks setActiveTask].
    assert (Hr : map (fun t => if taskId t =? active_id ev
                               then with_status newStatus t else t) (tasks b) <> []).
    { intros H. apply Hne. now apply map_eq_nil in H. }
    split; auto.
Qed.

Lemma board_with_tasks_stays_visible_witness :
  Forall (fun sp => shows_Loading (fst sp) = false)
    (handle click_Refresh_Board
       {| get_tasks_my_outcome := Resolved []; put_status_outcome := Resolved tt |}
       (board_of [t1; t2])).
Proof.
  apply (board_with_tasks_stays_visible click_Refresh_Board _ (board_of [t1; t2])).
  discriminate.
Defined.

(** X14.  A load that succeeds replaces the task list by the list received,
    removes an earlier error and drops the loading flag; it issues the one
    request and leaves the rest of the board alone. *)
Theorem successful_load_replaces_tasks (b : Board) (taskData : list Task) (o : Settled unit) :
  after click_Refresh_Board
    {| get_tasks_my_outcome := Resolved taskData; put_status_outcome := o |} b
    = {| tasks := taskData; activeTask := activeTask b; loading := false;
         error := None; selectedTaskId := selectedTaskId b;
         selectedTaskTitle := selectedTaskTitle b |} /\
  calls (handle click_Refresh_Board
           {| get_tasks_my_outcome := Resolved taskData; put_status_outcome := o |} b)
    = [call_apiClient_get "/tasks/my"] /\
  Forall (fun sp => snd sp <> Finished -> tasks (fst sp) = tasks b)
    (handle click_Refresh_Board
       {| get_tasks_my_outcome := Resolved taskData; put_status_outcome := o |} b).
Proof.
  unfold after, handle. cbn. repeat split.
  repeat constructor. cbn. intros H. now contradiction H.
Qed.

(** The comments of a card open only if both its id and its title are
    non-empty: for a task with an empty title the button does nothing
    visible.  Closing always closes. *)
Theorem comments_need_id_and_title (id ttl : string) (b : Board) :
  shows_TaskCommentModal (fst (handleOpenComments id ttl b))
    = negb (id =? "") && negb (ttl =? "") /\
  shows_TaskCommentModal (onClose (fst (handleOpenComments id ttl b))) = false /\
  tasks (fst (handleOpenComments id ttl b)) = tasks b.
Proof. repeat split. Qed.
End BoardMore.


(** ** The review inbox *)
Section ReviewFacts.
Import AdminReviewPage ReviewSpec.

(** X15.  The "Clear Filters" button is hidden exactly when all three filters are
    "All"; pressing it leads there, and then every task is listed. *)
Theorem clear_filters_shows_all (p : Page) :
  (shows_Clear_Filters p = false <->
   filterStatus p = "All" /\ filterPriority p = "All" /\ filterAssignee p = "All") /\
  shows_Clear_Filters (clearFilters p) = false /\
  filteredTasks (clearFilters p) = tasks p.
Proof.
  split; [|split].
  - unfold shows_Clear_Filters.
    destruct (String.eqb_spec (filterStatus p) "All");
      destruct (String.eqb_spec (filterPriority p) "All");
      destruct (String.eqb_spec (filterAssignee p) "All"); cbn; intuition congruence.
  - reflexivity.
  - unfold filteredTasks, clearFilters, matches. cbn.
    induction (tasks p) as [|t l IH]; cbn; [reflexivity | now rewrite IH].
Qed.

Lemma matches_split (p : Page) (t : Task) :
  matches p t
  = matches (only_status p) t && matches (only_priority p) t && matches (only_assignee p) t.
Proof.
  unfold matches, only_status, only_priority, only_assignee. cbn.
  destruct (filterStatus p =? "All"), (status t =? filterStatus p),
    (filterPriority p =? "All"), (priority t =? filterPriority p); cbn;
    rewrite ?andb_true_r, ?andb_false_r; reflexivity.
Qed.

Lemma filter_andb (A : Type) (f g : A -> bool) (l : list A) :
  filter (fun x => f x && g x) l = filter g (filter f l).
Proof.
  induction l as [|x l IH]; cbn; [reflexivity|].
  destruct (f x); cbn; [destruct (g x)|]; now rewrite IH.
Qed.


(** X17.  With a filter on the assignee, "Unassigned" lists tasks without an
    assignee only, and any other choice lists tasks with an assignee only. *)
Theorem assignee_filter_separates (p : Page) (t : Task) :
  In t (filteredTasks p) -> filterAssignee p <> "All" ->
  (assigneeId t = None <-> filterAssignee p = "Unassigned") /\
  (filterAssignee p <> "Unassigned" -> assigneeId t = Some (filterAssignee p)).
Proof.
  unfold filteredTasks. rewrite filter_In. intros [_ Hm] Hall.
  unfold matches in Hm. apply String.eqb_neq in Hall. rewrite Hall in Hm.
  apply andb_prop in Hm. destruct Hm as [_ Hm]. cbn [negb] in Hm.
  destruct (String.eqb_spec (filterAssignee p) "Unassigned") as [E|E].
  - destruct (assigneeId t); [discriminate|]. split; [tauto | contradiction].
  - destruct (assigneeId t) as [a|]; [|discriminate].
    apply String.eqb_eq in Hm. subst a. split; [|reflexivity].
    split; [discriminate | contradiction].
Qed.

Lemma assignee_filter_separates_witness :
  In login_page (filteredTasks inbox) /\ assigneeId login_page = Some "dev-7".
Proof.
  assert (H : In login_page (filteredTasks inbox)) by (now left).
  split; [exact H|].
  apply (assignee_filter_separates inbox login_page H); discriminate.
Defined.

(** X18.  Approving and deleting wait for the backend: nothing changes while the
    request is in flight, a rejected request leaves the tasks as they are and
    shows an alert, and a delete that is not confirmed issues no request. *)
Theorem review_changes_wait_for_backend
    (p : Page) (id e : string)
    (o1 : Settled (list Task)) (o2 : Settled (list UserData)) (o3 o4 : Settled unit) :
  handle (click_Delete id false)
    {| get_tasks_outcome := o1; get_developers_outcome := o2;
       put_approve_outcome := o3; delete_outcome := o4 |} p
    = [(p, Finished)] /\
  handle (click_Approve id)
    {| get_tasks_outcome := o1; get_developers_outcome := o2;
       put_approve_outcome := Rejected e; delete_outcome := o4 |} p
    = [(p, Pending (handleApprove_put id)); (alert "Failed to approve task." p, Finished)] /\
  handle (click_Delete id true)
    {| get_tasks_outcome := o1; get_developers_outcome := o2;
       put_approve_outcome := o3; delete_outcome := Rejected e |} p
    = [(p, Pending (handleDelete_delete id)); (alert "Failed to delete task." p, Finished)] /\
  tasks (alert "Failed to approve task." p) = tasks p /\
  tasks (alert "Failed to delete task." p) = tasks p /\
  nth_error (handle (click_Approve id)
               {| get_tasks_outcome := o1; get_developers_outcome := o2;
                  put_approve_outcome := o3; delete_outcome := o4 |} p) 0
    = Some (p, Pending (handleApprove_put id)) /\
  nth_error (handle (click_Delete id true)
               {| get_tasks_outcome := o1; get_developers_outcome := o2;
                  put_approve_outcome := o3; delete_outcome := o4 |} p) 0
    = Some (p, Pending (handleDelete_delete id)).
Proof. repeat split. Qed.

Lemma matches_approved (p : Page) (t : Task) : matches p (approved t) = matches p t.
Proof. reflexivity. Qed.

Lemma filter_map_commute (A : Type) (f : A -> bool) (g : A -> A) (l : list A) :
  (forall x, f (g x) = f x) -> filter f (map g l) = map g (filter f l).
Proof.
  intros H. induction l as [|x l IH]; cbn; [reflexivity|].
  rewrite H. destruct (f x); cbn; now rewrite IH.
Qed.

Lemma filter_filter_commute (A : Type) (f g : A -> bool) (l : list A) :
  filter f (filter g l) = filter g (filter f l).
Proof.
  induction l as [|x l IH]; cbn; [reflexivity|].
  destruct (f x) eqn:Ef, (g x) eqn:Eg; cbn; rewrite ?Ef, ?Eg, IH; reflexivity.
Qed.

(** X19.  A delete the backend accepts removes the tasks with that id, and nothing
    else, from the cache and from what is listed. *)
Theorem delete_removes_task
    (p : Page) (id : string)
    (o1 : Settled (list Task)) (o2 : Settled (list UserData)) (o3 : Settled unit) :
  tasks (after (click_Delete id true)
           {| get_tasks_outcome := o1; get_developers_outcome := o2;
              put_approve_outcome := o3; delete_outcome := Resolved tt |} p)
    = remove id (tasks p) /\
  ~ In id (map taskId (remove id (tasks p))) /\
  (forall t, taskId t <> id -> (In t (remove id (tasks p)) <-> In t (tasks p))) /\
  filteredTasks (after (click_Delete id true)
                   {| get_tasks_outcome := o1; get_developers_outcome := o2;
                      put_approve_outcome := o3; delete_outcome := Resolved tt |} p)
    = remove id (filteredTasks p) /\
  calls (handle (click_Delete id true)
           {| get_tasks_outcome := o1; get_developers_outcome := o2;
              put_approve_outcome := o3; delete_outcome := Resolved tt |} p)
    = [{| call_method := "DELETE"; call_endpoint := "/admin/tasks/" ++ id;
          call_body := [] |}].
Proof.
  split; [reflexivity|]. split; [|split; [|split; [|reflexivity]]].
  - unfold remove. intros H. apply in_map_iff in H. destruct H as (t & Ht & Hin).
    apply filter_In in Hin. destruct Hin as [_ Hn].
    rewrite Ht, String.eqb_refl in Hn. discriminate.
  - intros t Hne. unfold remove. rewrite filter_In.
    apply String.eqb_neq in Hne. rewrite Hne. cbn. tauto.
  - unfold after, handle. cbn. unfold filteredTasks, remove. cbn.
    apply filter_filter_commute.
Qed.

(** X20.  An approval the backend accepts marks the tasks with that id as approved,
    so their "Approve" button goes; it keeps every card in place, changes no
    other task and no other field, and what is listed is what was listed.
    Approving again changes nothing more. *)
Theorem approve_marks_task
    (p : Page) (id : string)
    (o1 : Settled (list Task)) (o2 : Settled (list UserData)) (o4 : Settled unit) :
  tasks (after (click_Approve id)
           {| get_tasks_outcome := o1; get_developers_outcome := o2;
              put_approve_outcome := Resolved tt; delete_outcome := o4 |} p)
    = approve id (tasks p) /\
  map taskId (approve id (tasks p)) = map taskId (tasks p) /\
  (forall t, In t (approve id (tasks p)) -> taskId t = id -> shows_Approve t = false) /\
  (forall t, In t (tasks p) -> taskId t <> id -> In t (approve id (tasks p))) /\
  filteredTasks (after (click_Approve id)
                   {| get_tasks_outcome := o1; get_developers_outcome := o2;
                      put_approve_outcome := Resolved tt; delete_outcome := o4 |} p)
    = approve id (filteredTasks p) /\
  approve id (approve id (tasks p)) = approve id (tasks p).
Proof.
  split; [reflexivity|]. split; [|split; [|split; [|split]]].
  - unfold approve. rewrite map_map. apply map_ext. intros t.
    now destruct (taskId t =? id).
  - intros t Hin Hid. unfold approve in Hin. apply in_map_iff in Hin.
    destruct Hin as (x & Hx & _).
    destruct (taskId x =? id) eqn:E; subst t; [reflexivity|].
    apply String.eqb_neq in E. contradiction.
  - intros t Hin Hne. unfold approve. apply in_map_iff. exists t.
    apply String.eqb_neq in Hne. now rewrite Hne.
  - change (filter (matches p) (approve id (tasks p)) = approve id (filter (matches p) (tasks p))).
    unfold approve. apply filter_map_commute. intros x.
    now destruct (taskId x =? id).
  - unfold approve. rewrite map_map. apply map_ext. intros t.
    destruct (taskId t =? id) eqn:E; cbn; now rewrite E.
Qed.

Lemma message_or_not_empty (message fallback : string) :
  fallback <> "" -> message_or message fallback <> "".
Proof.
  intros H. unfold message_or. destruct (String.eqb_spec message ""); assumption.
Qed.

(** X21.  [fetchData] asks for the tasks and then for the developers.  When the
    first request fails the second is not issued and the cache is kept; when
    only the second fails the new tasks are already in the cache and the old
    developers stay.  Either way an error message, never an empty one, is set
    and the page shows it in place of the list. *)
Theorem fetchData_partial_failure
    (p : Page) (taskData : list Task) (e : string)
    (o2 : Settled (list UserData)) (o3 o4 : Settled unit) :
  calls (handle mount
           {| get_tasks_outcome := Rejected e; get_developers_outcome := o2;
              put_approve_outcome := o3; delete_outcome := o4 |} p)
    = [{| call_method := "GET"; call_endpoint := "/admin/tasks"; call_body := [] |}] /\
  after mount
    {| get_tasks_outcome := Rejected e; get_developers_outcome := o2;
       put_approve_outcome := o3; delete_outcome := o4 |} p
    = setLoading false (setError (Some (message_or e "Failed to fetch data.")) p) /\
  calls (handle mount
           {| get_tasks_outcome := Resolved taskData; get_developers_outcome := Rejected e;
              put_approve_outcome := o3; delete_outcome := o4 |} p)
    = [{| call_method := "GET"; call_endpoint := "/admin/tasks"; call_body := [] |};
       {| call_method := "GET"; call_endpoint := "/admin/developers"; call_body := [] |}] /\
  after mount
    {| get_tasks_outcome := Resolved taskData; get_developers_outcome := Rejected e;
       put_approve_outcome := o3; delete_outcome := o4 |} p
    = setLoading false
        (setError (Some (message_or e "Failed to fetch data."))
           (setTasks (fun _ => taskData) p)) /\
  shows_list (setLoading false (setError (Some (message_or e "Failed to fetch data.")) p))
    = false /\
  shows_list (setLoading false
                (setError (Some (message_or e "Failed to fetch data."))
                   (setTasks (fun _ => taskData) p))) = false.
Proof.
  assert (Hm : (message_or e "Failed to fetch data." =? "") = false).
  { apply String.eqb_neq, message_or_not_empty. discriminate. }
  unfold after, handle. cbn. unfold shows_list. cbn. rewrite Hm. repeat split.
Qed.
End ReviewFacts.

(** ** User management *)
Section UsersFacts.
Import UserManagementPage UsersSpec.

(** X22.  An admin cannot change their own role from this page: the handler shows
    an alert and returns, no request is issued and the list is as before; the
    [select] of their own row is disabled. *)
Theorem own_role_is_protected
    (currentUser : FirebaseUser) (newRole : string) (env : Outcomes) (p : Page) :
  handle (Some currentUser) (change_role (uid currentUser) newRole) env p
    = [(alert "You cannot change your own role here." p, Finished)] /\
  calls (handle (Some currentUser) (change_role (uid currentUser) newRole) env p) = [] /\
  users (after (Some currentUser) (change_role (uid currentUser) newRole) env p) = users p /\
  (forall u, user_uid u = uid currentUser -> select_disabled (Some currentUser) u = true).
Proof.
  unfold after, handle. cbn. unfold handleRoleChange, is_self.
  rewrite String.eqb_refl. cbn. repeat split.
  intros u Hu. unfold select_disabled, is_self. rewrite Hu. apply String.eqb_refl.
Qed.

(** X23.  The role of another user changes in the list only once the backend has
    accepted the change: a rejected request leaves the list as it is and
    shows an alert; an accepted one sets the new role for that uid and for no
    other, keeps every row in place, and announces the change. *)
Theorem role_change_waits_for_backend
    (currentUser : option FirebaseUser) (userId newRole e : string)
    (o1 : Settled (list UserData)) (p : Page) :
  is_self currentUser userId = false ->
  handle currentUser (change_role userId newRole)
    {| get_users_outcome := o1; put_role_outcome := Rejected e |} p
    = [(p, Pending (handleRoleChange_put userId newRole));
       (alert "Failed to update role." p, Finished)] /\
  users (after currentUser (change_role userId newRole)
           {| get_users_outcome := o1; put_role_outcome := Resolved tt |} p)
    = map (fun u => if user_uid u =? userId then with_role newRole u else u) (users p) /\
  map user_uid (users (after currentUser (change_role userId newRole)
                         {| get_users_outcome := o1; put_role_outcome := Resolved tt |} p))
    = map user_uid (users p) /\
  (forall u, In u (users p) -> user_uid u <> userId ->
             In u (users (after currentUser (change_role userId newRole)
                            {| get_users_outcome := o1; put_role_outcome := Resolved tt |} p))) /\
  (forall u, In u (users (after currentUser (change_role userId newRole)
                            {| get_users_outcome := o1; put_role_outcome := Resolved tt |} p)) ->
             user_uid u = userId -> role u = newRole) /\
  success (after currentUser (change_role userId newRole)
             {| get_users_outcome := o1; put_role_outcome := Resolved tt |} p)
    = Some ("User role updated to " ++ newRole).
Proof.
  intros Hs. unfold after, handle. cbn [start]. unfold handleRoleChange. rewrite Hs.
  cbn. split; [reflexivity|]. split; [reflexivity|]. split; [|split; [|split]].
  - rewrite map_map. apply map_ext. intros u. now destruct (user_uid u =? userId).
  - intros u Hin Hne. apply in_map_iff. exists u.
    apply String.eqb_neq in Hne. now rewrite Hne.
  - intros u Hin Hid. apply in_map_iff in Hin. destruct Hin as (x & Hx & _).
    destruct (user_uid x =? userId) eqn:E; subst u; [reflexivity|].
    apply String.eqb_neq in E. contradiction.
  - reflexivity.
Qed.

Lemma role_change_waits_for_backend_witness :
  users (after (Some SessionSpec.alice) (change_role "dev-7" "admin") update_ok directory)
    = [root; with_role "admin" dana].
Proof.
  destruct (role_change_waits_for_backend (Some SessionSpec.alice) "dev-7" "admin" "unused"
              (Rejected "unused") directory) as (_ & H & _).
  - reflexivity.
  - exact H.
Defined.

(** X24.  Every accepted change sets a timer, and the first timer to run removes
    whatever success message is shown: after two changes in a row, the
    message of the second goes when the timer of the first runs, while the
    second timer is still to come. *)
Theorem early_timer_clears_later_message
    (currentUser : option FirebaseUser) (id1 role1 id2 role2 : string)
    (env1 env2 : Outcomes) (p : Page) :
  is_self currentUser id1 = false -> is_self currentUser id2 = false ->
  resolved (put_role_outcome env1) = true -> resolved (put_role_outcome env2) = true ->
  success (after currentUser (change_role id2 role2) env2
             (after currentUser (change_role id1 role1) env1 p))
    = Some ("User role updated to " ++ role2) /\
  timers (after currentUser (change_role id2 role2) env2
            (after currentUser (change_role id1 role1) env1 p)) = 2 + timers p /\
  success (timer_fires (after currentUser (change_role id2 role2) env2
                          (after currentUser (change_role id1 role1) env1 p))) = None /\
  timers (timer_fires (after currentUser (change_role id2 role2) env2
                         (after currentUser (change_role id1 role1) env1 p))) = 1 + timers p.
Proof.
  intros H1 H2 R1 R2. unfold after, handle. cbn [start]. unfold handleRoleChange.
  rewrite H1. cbn. destruct (put_role_outcome env1); [|discriminate R1]. cbn.
  rewrite H2. cbn. destruct (put_role_outcome env2); [|discriminate R2]. cbn.
  repeat split.
Qed.

Lemma early_timer_clears_later_message_witness :
  success (timer_fires (after (Some SessionSpec.alice) (change_role "dev-7" "developer") update_ok
                          (after (Some SessionSpec.alice) (change_role "dev-7" "admin") update_ok
                             directory))) = None.
Proof.
  destruct (early_timer_clears_later_message (Some SessionSpec.alice)
              "dev-7" "admin" "dev-7" "developer" update_ok update_ok directory)
    as (_ & _ & H & _).
  - reflexivity.
  - reflexivity.
  - reflexivity.
  - reflexivity.
  - exact H.
Defined.
End UsersFacts.

(** ** The skills of the profile page *)
Section ProfileFacts.
Import ProfilePage.

Lemma trimStart_suffix (s : JSString) :
  exists w, s = (w ++ trimStart s)%list /\ Forall (fun c => is_white c = true) w.
Proof.
  induction s as [|c s IH]; cbn.
  - exists []. split; [reflexivity | constructor].
  - destruct (is_white c) eqn:E.
    + destruct IH as (w & Hw & Hall). exists (c :: w). split.
      * cbn. now rewrite <- Hw.
      * now constructor.
    + exists []. split; [reflexivity | constructor].
Qed.

Lemma trimStart_head (s : JSString) :
  match trimStart s with
  | [] => True
  | c :: _ => is_white c = false
  end.
Proof.
  induction s as [|c s IH]; cbn; [exact I|].
  destruct (is_white c) eqn:E; [exact IH | exact E].
Qed.

Lemma trimStart_fixed (s : JSString) :
  match s with
  | [] => True
  | c :: _ => is_white c = false
  end -> trimStart s = s.
Proof. destruct s as [|c s]; cbn; [reflexivity|]. now intros ->. Qed.

Lemma trimStart_idem (s : JSString) : trimStart (trimStart s) = trimStart s.
Proof. apply trimStart_fixed, trimStart_head. Qed.

(** What [trim] leaves is a stretch of the string between white space. *)
Lemma trim_middle (s : JSString) :
  exists w1 w2, s = (w1 ++ trim s ++ w2)%list /\
                Forall (fun c => is_white c = true) w1 /\
                Forall (fun c => is_white c = true) w2.
Proof.
  destruct (trimStart_suffix s) as (w1 & H1 & A1).
  destruct (trimStart_suffix (rev (trimStart s))) as (w & H2 & A2).
  exists w1, (rev w). split; [|split; [assumption|]].
  - unfold trim, trimEnd. rewrite <- rev_app_distr, <- H2, rev_involutive. exact H1.
  - apply Forall_rev. exact A2.
Qed.

Lemma trim_head (s : JSString) :
  match trim s with
  | [] => True
  | c :: _ => is_white c = false
  end.
Proof.
  destruct (trimStart_suffix (rev (trimStart s))) as (w & H2 & _).
  assert (H : trimStart s = (trim s ++ rev w)%list).
  { unfold trim, trimEnd. rewrite <- rev_app_distr, <- H2. now rewrite rev_involutive. }
  pose proof (trimStart_head s) as Hh. rewrite H in Hh.
  destruct (trim s); [exact I | exact Hh].
Qed.

Lemma trim_idem (s : JSString) : trim (trim s) = trim s.
Proof.
  unfold trim at 1. rewrite (trimStart_fixed (trim s) (trim_head s)).
  unfold trim, trimEnd. rewrite rev_involutive, trimStart_idem. reflexivity.
Qed.

Lemma trim_In (s : JSString) (c : N) : In c (trim s) -> In c s.
Proof.
  intros H. destruct (trim_middle s) as (w1 & w2 & Hs & _).
  rewrite Hs. apply in_or_app. right. apply in_or_app. now left.
Qed.

Lemma trim_leading_space (x : JSString) : trim (space :: x) = trim x.
Proof. reflexivity. Qed.

Lemma split_not_nil (s : JSString) : split s <> [].
Proof.
  induction s as [|c s IH]; cbn; [discriminate|].
  destruct (c =? comma)%N; [discriminate|].
  destruct (split s); [contradiction | discriminate].
Qed.

Lemma split_no_comma (s : JSString) : Forall (fun piece => ~ In comma piece) (split s).
Proof.
  induction s as [|c s IH]; cbn.
  - constructor; [intros [] | constructor].
  - destruct (N.eqb_spec c comma) as [E|E].
    + constructor; [intros [] | exact IH].
    + destruct (split s) as [|piece pieces] eqn:Es; [contradiction (split_not_nil s Es)|].
      inversion IH as [|? ? Hp Hps]; subst.
      constructor; [|assumption].
      intros [H|H]; [now apply E | now apply Hp].
Qed.

Lemma split_app_comma (x rest : JSString) :
  ~ In comma x -> split (x ++ comma :: rest)%list = x :: split rest.
Proof.
  induction x as [|c x IH]; cbn; intros Hn.
  - reflexivity.
  - destruct (N.eqb_spec c comma) as [E|E]; [exfalso; apply Hn; now left|].
    rewrite IH by (intros H; apply Hn; now right). reflexivity.
Qed.

Lemma split_plain (x : JSString) : ~ In comma x -> split x = [x].
Proof.
  induction x as [|c x IH]; cbn; intros Hn; [reflexivity|].
  destruct (N.eqb_spec c comma) as [E|E]; [exfalso; apply Hn; now left|].
  rewrite IH by (intros H; apply Hn; now right). reflexivity.
Qed.

Lemma split_join (x : JSString) (rest : list JSString) :
  Forall tidy (x :: rest) ->
  split (join (x :: rest)) = x :: map (fun y => space :: y) rest.
Proof.
  revert x. induction rest as [|y rest IH]; intros x Hall.
  - cbn. inversion Hall as [|? ? (_ & Hx & _) _]; subst. now apply split_plain.
  - inversion Hall as [|? ? (_ & Hx & _) Hrest]; subst.
    change (join (x :: y :: rest)) with (x ++ comma :: space :: join (y :: rest))%list.
    rewrite split_app_comma by assumption.
    specialize (IH y Hrest).
    change (split (space :: join (y :: rest))) with
      (match split (join (y :: rest)) with
       | piece :: pieces => (space :: piece) :: pieces
       | [] => [[space]]
       end).
    rewrite IH. reflexivity.
Qed.

Lemma filter_nonempty (l : list JSString) :
  Forall (fun y => y <> []) l ->
  filter (fun y => negb (Nat.eqb (List.length y) 0)) l = l.
Proof.
  induction 1 as [|y l Hy _ IH]; [reflexivity|].
  cbn. destruct y as [|d y]; [contradiction|]. cbn. now rewrite IH.
Qed.

(** Writing skills out with [join] and reading them back gives the same
    skills, as long as each of them is tidy: not empty, without a comma and
    without white space at its ends. *)
Lemma newSkillsArray_join (l : list JSString) :
  Forall tidy l -> newSkillsArray (join l) = l.
Proof.
  intros Hall. destruct l as [|x rest]; [reflexivity|].
  unfold newSkillsArray. rewrite (split_join x rest Hall).
  cbn [map]. rewrite map_map.
  assert (Hm : map (fun y => trim (space :: y)) rest = rest).
  { inversion Hall as [|? ? _ Hrest]; subst. clear Hall.
    induction Hrest as [|y rest (_ & _ & Hy) _ IH]; cbn [map]; [reflexivity|].
    rewrite trim_leading_space, Hy. now rewrite IH. }
  rewrite Hm.
  inversion Hall as [|? ? (Hne & _ & Hx) Hrest]; subst.
  rewrite Hx. apply filter_nonempty.
  eapply Forall_impl; [|exact Hall]. now intros y (Hy & _).
Qed.

Lemma newSkillsArray_tidy (skillsInput : JSString) :
  Forall tidy (newSkillsArray skillsInput).
Proof.
  unfold newSkillsArray. apply Forall_forall. intros x Hx.
  apply filter_In in Hx. destruct Hx as [Hin Hlen].
  apply in_map_iff in Hin. destruct Hin as (piece & <- & Hp).
  pose proof (split_no_comma skillsInput) as Hc. rewrite Forall_forall in Hc.
  unfold tidy. split; [|split].
  - destruct (trim piece); [discriminate | discriminate].
  - intros H. apply (Hc piece Hp). now apply trim_In.
  - apply trim_idem.
Qed.

(** X25.  Whatever is typed into the skills box, the skills sent to the backend
    are tidy: none is empty, none has a comma, none starts or ends with white
    space.  Reading them back from their own listing gives them again, so
    saving a second time sends the same skills; and a box with nothing but
    commas and white space sends no skill at all. *)
Theorem saved_skills_are_tidy (p : Page) :
  skills_sent (snd (handleSaveSkills p)) = Some (newSkillsArray (skillsInput p)) /\
  Forall tidy (newSkillsArray (skillsInput p)) /\
  newSkillsArray (join (newSkillsArray (skillsInput p))) = newSkillsArray (skillsInput p) /\
  (Forall (fun c => is_white c = true \/ c = comma) (skillsInput p) ->
   newSkillsArray (skillsInput p) = []).
Proof.
  split; [reflexivity|]. split; [apply newSkillsArray_tidy|].
  split; [apply newSkillsArray_join, newSkillsArray_tidy|].
  intros Hall.
  destruct (newSkillsArray (skillsInput p)) as [|x l] eqn:E; [reflexivity|].
  exfalso.
  assert (Hx : In x (newSkillsArray (skillsInput p))) by (rewrite E; now left).
  unfold newSkillsArray in Hx. apply filter_In in Hx. destruct Hx as [Hin Hlen].
  apply in_map_iff in Hin. destruct Hin as (piece & Ht & Hp).
  pose proof (split_no_comma (skillsInput p)) as Hc. rewrite Forall_forall in Hc.
  specialize (Hc piece Hp).
  assert (Hw : Forall (fun c => is_white c = true) piece).
  { clear -Hall Hp Hc. revert piece Hp Hc.
    induction (skillsInput p) as [|c s IH]; cbn; intros piece Hp Hc.
    - destruct Hp as [<-|[]]. constructor.
    - inversion Hall as [|? ? Hc0 Hs]; subst.
      destruct (N.eqb_spec c comma) as [Ec|Ec].
      + destruct Hp as [<-|Hp]; [constructor | now apply IH].
      + destruct (split s) as [|q qs] eqn:Es; [contradiction (split_not_nil s Es)|].
        destruct Hp as [<-|Hp].
        * constructor; [destruct Hc0; [assumption | contradiction]|].
          apply IH; [assumption | now left | intros H; apply Hc; now right].
        * apply IH; [assumption | now right | assumption]. }
  assert (Hn : trim piece = []).
  { unfold trim.
    assert (H0 : forall s, Forall (fun c => is_white c = true) s -> trimStart s = []).
    { intros s Hs. induction Hs as [|c s Hc0 _ IH]; cbn; [reflexivity|]. now rewrite Hc0. }
    rewrite (H0 piece Hw). reflexivity. }
  rewrite Hn in Ht. subst x. discriminate Hlen.
Qed.

(** X26.  Loading the profile and saving without touching the box sends back the
    skills that were loaded, provided each of them is tidy. *)
Theorem untouched_skills_round_trip (p : Page) (data : ProfileData) :
  Forall tidy (skills_or_empty data) ->
  skills_sent (snd (handleSaveSkills (fst (settle fetchProfile_get (Resolved data) p))))
    = Some (skills_or_empty data).
Proof.
  intros Hall. cbn. f_equal. now apply newSkillsArray_join.
Qed.

Lemma untouched_skills_round_trip_witness :
  skills_sent (snd (handleSaveSkills
                      (fst (settle fetchProfile_get (Resolved ProfileSpec.dana_profile)
                              initial))))
    = Some [ProfileSpec.React; ProfileSpec.Unit_Testing].
Proof.
  apply (untouched_skills_round_trip initial ProfileSpec.dana_profile).
  repeat constructor; try discriminate; cbn; intuition discriminate.
Defined.
End ProfileFacts.

(** ** The admin dashboard *)
Section ProjectsFacts.
Import AdminDashboard ProjectsSpec.

(** X27.  Task generation needs both a text and a project: without either no
    request is issued, the matching message is set as the error (the missing
    text is reported first) and nothing else of the page changes. *)
Theorem generate_needs_text_and_project (p : Page) (env : Outcomes) :
  srsText p = "" \/ selectedProject p = "" ->
  handle click_Generate env p
    = [(setError (Some (if srsText p =? "" then "Please paste your SRS text."
                        else "Please select a project.")) p, Finished)] /\
  calls (handle click_Generate env p) = [].
Proof.
  intros H. unfold handle. cbn [start]. unfold handleGenerateTasks.
  destruct (String.eqb_spec (srsText p) "") as [E|E].
  - cbn. split; reflexivity.
  - destruct H as [H|H]; [contradiction|]. rewrite H. cbn. split; reflexivity.
Qed.

Lemma generate_needs_text_and_project_witness :
  handle click_Generate billing_deleted working_on_billing
    = [(setError (Some "Please paste your SRS text.") working_on_billing, Finished)].
Proof.
  destruct (generate_needs_text_and_project working_on_billing billing_deleted) as (H & _).
  - left. reflexivity.
  - exact H.
Defined.

(** X28.  With a text and a project, the request carries both.  When it succeeds
    the text box is emptied and a success message, never an empty one, is
    shown; when it fails the text is kept and an error message, never an
    empty one, is shown.  Either way the page stops loading. *)
Theorem generate_keeps_text_on_failure
    (p : Page) (result : GenerateResult) (e : string)
    (o1 : Settled (list Project)) (o3 : Settled unit) :
  srsText p <> "" -> selectedProject p <> "" ->
  calls (handle click_Generate
           {| get_projects_outcome := o1; post_generate_outcome := Resolved result;
              delete_project_outcome := o3 |} p)
    = [{| call_method := "POST"; call_endpoint := "/admin/generate-tasks";
          call_body := [("srs_text", srsText p); ("project_id", selectedProject p)] |}] /\
  after click_Generate
    {| get_projects_outcome := o1; post_generate_outcome := Resolved result;
       delete_project_outcome := o3 |} p
    = {| srsText := ""; selectedProject := selectedProject p; loading := false;
         error := None;
         success := Some (message_or (result_message result) "Tasks generated successfully!");
         projects := projects p; isProjectModalOpen := isProjectModalOpen p |} /\
  after click_Generate
    {| get_projects_outcome := o1; post_generate_outcome := Rejected e;
       delete_project_outcome := o3 |} p
    = {| srsText := srsText p; selectedProject := selectedProject p; loading := false;
         error := Some (message_or e "Failed to generate tasks.");
         success := None;
         projects := projects p; isProjectModalOpen := isProjectModalOpen p |} /\
  message_or (result_message result) "Tasks generated successfully!" <> "" /\
  message_or e "Failed to generate tasks." <> "".
Proof.
  intros H1 H2. unfold after, handle. cbn [start]. unfold handleGenerateTasks.
  apply String.eqb_neq in H1, H2. rewrite H1, H2. cbn.
  repeat split; apply message_or_not_empty; discriminate.
Qed.

Lemma generate_keeps_text_on_failure_witness :
  srsText (after click_Generate
             {| get_projects_outcome := Rejected "unused";
                post_generate_outcome := Rejected "";
                delete_project_outcome := Resolved tt |}
             (setSrsText "The system shall ..." working_on_billing))
    = "The system shall ...".
Proof.
  destruct (generate_keeps_text_on_failure
              (setSrsText "The system shall ..." working_on_billing)
              {| result_message := "" |} "" (Rejected "unused") (Resolved tt))
    as (_ & _ & H & _).
  - discriminate.
  - discriminate.
  - rewrite H. reflexivity.
Defined.

(** X29.  [fetchProjects] selects the first project of the list it receives only
    when none is selected, and never replaces a selection; an empty list or
    a failed request selects nothing. *)
Theorem first_project_selected_when_none
    (p : Page) (data : list Project) (e : string)
    (o2 : Settled GenerateResult) (o3 : Settled unit) :
  after mount
    {| get_projects_outcome := Resolved data; post_generate_outcome := o2;
       delete_project_outcome := o3 |} p
    = setSelectedProject
        (match data with
         | first :: _ => if selectedProject p =? "" then projectId first else selectedProject p
         | [] => selectedProject p
         end) (setProjects data p) /\
  after mount
    {| get_projects_outcome := Rejected e; post_generate_outcome := o2;
       delete_project_outcome := o3 |} p = p /\
  (selectedProject p <> "" ->
   selectedProject (after mount
                      {| get_projects_outcome := Resolved data; post_generate_outcome := o2;
                         delete_project_outcome := o3 |} p) = selectedProject p).
Proof.
  unfold after, handle. destruct p as [srs sel ld er su pr op]. cbn.
  destruct data as [|first rest]; cbn; [repeat split|].
  destruct (String.eqb_spec sel "") as [E|E]; cbn; repeat split;
    intros; try contradiction; auto.
Qed.

(** X30.  After a project was deleted none is selected, whatever the refetch
    returns: the refetch that follows the delete belongs to the render of the
    click, where the deleted project was still the selected one, so it does
    not pick the first of the projects that are left. *)
Theorem deleted_project_leaves_none_selected
    (p : Page) (o1 : Settled (list Project)) (o2 : Settled GenerateResult) :
  selectedProject p <> "" ->
  selectedProject (after (click_Delete_Project true)
                     {| get_projects_outcome := o1; post_generate_outcome := o2;
                        delete_project_outcome := Resolved tt |} p) = "" /\
  delete_disabled (after (click_Delete_Project true)
                     {| get_projects_outcome := o1; post_generate_outcome := o2;
                        delete_project_outcome := Resolved tt |} p) = true /\
  calls (handle (click_Delete_Project true)
           {| get_projects_outcome := o1; post_generate_outcome := o2;
              delete_project_outcome := Resolved tt |} p)
    = [{| call_method := "DELETE"; call_endpoint := "/projects/" ++ selectedProject p;
          call_body := [] |};
       {| call_method := "GET"; call_endpoint := "/projects"; call_body := [] |}] /\
  (forall env, handle (click_Delete_Project false) env p = [(p, Finished)]).
Proof.
  intros H. unfold after, handle. cbn [start]. unfold handleDeleteProject, delete_disabled.
  apply String.eqb_neq in H. rewrite H. cbn.
  destruct o1 as [[|first rest]|e]; cbn; rewrite ?H; cbn; repeat split.
Qed.

Lemma deleted_project_leaves_none_selected_witness :
  selectedProject (after (click_Delete_Project true) billing_deleted working_on_billing) = "" /\
  projects (after (click_Delete_Project true) billing_deleted working_on_billing) = [website].
Proof.
  split; [|reflexivity].
  apply (deleted_project_leaves_none_selected working_on_billing
           (Resolved [website]) (Rejected "unused")).
  discriminate.
Defined.
End ProjectsFacts.
